(** * PebbloRetrievalQA: identity and semantic enforcement in a retrieval chain

    A shallow embedding of
    [libs/community/langchain_community/chains/pebblo_retrieval/base.py].

    The chain is stateful Python: it mutates the retriever it holds, flips
    class-level flags, logs, and talks to an HTTP server.  Every method is
    embedded as a function in a small state-and-exception monad [M] over a
    [World]; the world carries the retriever object, the two class
    attributes and a trace of the observable effects in program order.

    The modules [enforcement_filters], [models] and [utilities] that
    [base.py] imports are not part of the sources at hand.  Their constants
    and the helper [set_enforcement_filters] are fields of the environment
    record [Env]; the filter compiler is in addition modelled after the
    written specification in the module [Enforcement]. *)

From stdpp Require Import base option list strings pretty gmap.

Open Scope string_scope.
Open Scope list_scope.

(** ** Python values that flow through the chain *)

(** [models.AuthContext]: the attributes [base.py] reads are [user_id] and
    [user_auth]. *)
Record AuthContext := mkAuthContext {
  user_id : string;
  user_auth : list string
}.

(** [models.SemanticContext]: allow and deny lists for topics and entities. *)
Record SemanticContext := mkSemanticContext {
  allowed_topics : list string;
  denied_topics : list string;
  allowed_entities : list string;
  denied_entities : list string
}.

(** A metadata value of a document: a scalar or a list of labels. *)
Inductive MetaVal :=
| MStr (s : string)
| MList (l : list string).

(** [langchain_core.documents.Document]. *)
Record Document := mkDocument {
  page_content : string;
  metadata : gmap string MetaVal
}.

(** What a retriever hands back: [_call] still tests
    [isinstance(doc, Document)], so other objects are possible. *)
Inductive Item :=
| IDoc (d : Document)
| IOther (repr : string).

(** The values found in the [inputs] dictionary and put in the output
    dictionary. *)
Inductive PyVal :=
| VNone
| VStr (s : string)
| VDict (kvs : list (string * string))
| VAuthContext (a : AuthContext)
| VSemanticContext (s : SemanticContext)
| VDocs (ds : list Item).

(** Python truthiness: [None], the empty string, dict and list are falsy; a
    model object has neither [__bool__] nor [__len__] and is truthy. *)
Definition truthy (v : PyVal) : bool :=
  match v with
  | VNone => false
  | VStr s => negb (bool_decide (s = ""))
  | VDict kvs => negb (bool_decide (kvs = []))
  | VAuthContext _ => true
  | VSemanticContext _ => true
  | VDocs ds => match ds with [] => false | _ => true end
  end.

(** ** Exceptions *)

Inductive ExnClass :=
| ValueError
| KeyError
| AttributeError
| RequestException          (* requests.exceptions.RequestException and subclasses *)
| OtherException            (* any other subclass of Exception *)
| ValidationError           (* raised by the constructor of a model class *)
| InvalidConstraintError
| UnsupportedBackendError
| UnsupportedFilterOperatorError
| MissingFieldMappingError.

Record Exn := mkExn {
  exn_class : ExnClass;
  exn_msg : string
}.

(** [isinstance(e, requests.exceptions.RequestException)]. *)
Definition is_request_exception (e : Exn) : bool :=
  match exn_class e with
  | RequestException => true
  | _ => false
  end.

Inductive Outcome (A : Type) :=
| Ret (a : A)
| Raise (e : Exn).
Arguments Ret {A} a.
Arguments Raise {A} e.

(** Sequencing of fallible pure steps. *)
Definition and_then {A B} (x : Outcome A) (k : A → Outcome B) : Outcome B :=
  match x with
  | Ret a => k a
  | Raise e => Raise e
  end.

Notation "'let!' x ':=' e 'in' k" := (and_then e (fun x => k))
  (at level 10, x name, e at level 200, k at level 200).

(** ** Vector stores and retrievers *)

(** A class object: two classes are the same when they are the same
    object, which [class_id] stands for; [class_name] is [__name__], and
    two different classes may well share it. *)
Record PyClass := mkClass {
  class_id : nat;
  class_name : string
}.

Global Instance PyClass_eq_dec : EqDecision PyClass.
Proof. solve_decision. Defined.

(** The embeddings object of a store; [emb_model] is [str(e.model)], or
    nothing when the object has no attribute [model]. *)
Record Embeddings := mkEmbeddings {
  emb_model : option string
}.

(** A vector store object.  [vs_mro] is the method resolution order of its
    class, own class first, so that [isinstance(vs, C)] is membership of the
    class object [C] in it.  The attributes [_embeddings] and [_embedding]
    may each be missing. *)
Record VectorStore := mkVectorStore {
  vs_class : PyClass;
  vs_bases : list PyClass;
  vs_embeddings : option Embeddings;
  vs_embedding : option Embeddings
}.

Definition vs_mro (vs : VectorStore) : list PyClass := vs_class vs :: vs_bases vs.

Definition isinstance (vs : VectorStore) (cls : PyClass) : bool :=
  bool_decide (cls ∈ vs_mro vs).

(** [vs.__class__.__name__]. *)
Definition vs_class_name (vs : VectorStore) : string := class_name (vs_class vs).

(** ** Compiled filters *)

Inductive Filter :=
| FAll                                         (* the empty filter *)
| FEq (field : string) (v : string)            (* field == v *)
| FIn (field : string) (vs : list string)      (* field IN vs *)
| FAnd (f g : Filter)
| FOr (f g : Filter)
| FNot (f : Filter).

(** A filter tagged with the backend it was compiled for. *)
Record CompiledFilter := mkCompiledFilter {
  cf_backend : string;
  cf_expr : Filter
}.

(** [VectorStoreRetriever]: the store and the filter slot of its
    [search_kwargs], the one part the chain writes. *)
Record VectorStoreRetriever := mkRetriever {
  vectorstore : VectorStore;
  search_filter : option CompiledFilter
}.

Global Instance MetaVal_eq_dec : EqDecision MetaVal.
Proof. solve_decision. Defined.

(** ** The enforcement-filter compiler *)

Module Enforcement.

Inductive LogicOp := OpAnd | OpOr | OpNot.

Global Instance LogicOp_eq_dec : EqDecision LogicOp.
Proof. solve_decision. Defined.

(** The abstract metadata fields a constraint can talk about. *)
Inductive AbstractField := Principal | Group | Topic | Entity.

(** Modelled from the spec: the capability descriptor of the module
    [enforcement_filters], which is not among the sources.  It records the
    logical operators a backend supports and the native name of each
    abstract field. *)
Record BackendCapability := mkCapability {
  supported_ops : list LogicOp;
  field_map : AbstractField -> option string
}.

(** Modelled from the spec: the registry of [enforcement_filters], a static
    table from backend identifier to capability descriptor. *)
Definition is_supported (reg : gmap string BackendCapability) (b : string) : bool :=
  bool_decide (is_Some (reg !! b)).

(** Modelled from the spec: [get_capability] of the registry in
    [enforcement_filters]; it fails with [UnsupportedBackendError] when the
    backend is absent. *)
Definition get_capability (reg : gmap string BackendCapability) (b : string)
  : Outcome BackendCapability :=
  match reg !! b with
  | Some cap => Ret cap
  | None => Raise (mkExn UnsupportedBackendError b)
  end.

(** Modelled from the spec: step 4 of the compiler of [enforcement_filters],
    only supported operators may be used. *)
Definition require_op (cap : BackendCapability) (op : LogicOp) : Outcome unit :=
  if bool_decide (op ∈ supported_ops cap) then Ret tt
  else Raise (mkExn UnsupportedFilterOperatorError "operator").

(** Modelled from the spec: step 5 of the compiler of [enforcement_filters],
    abstract field names are mapped to native ones. *)
Definition native_field (cap : BackendCapability) (f : AbstractField) : Outcome string :=
  match field_map cap f with
  | Some n => Ret n
  | None => Raise (mkExn MissingFieldMappingError "field")
  end.

(** Modelled from the spec: step 2 of the compiler of [enforcement_filters],
    the identity clause: the principal matches or any held group matches. *)
Definition compile_identity (cap : BackendCapability) (a : AuthContext) : Outcome Filter :=
  let! _ := require_op cap OpOr in
  let! p := native_field cap Principal in
  let! g := native_field cap Group in
  Ret (FOr (FEq p (user_id a)) (FIn g (user_auth a))).

(** Conjunction of two optional clauses; an absent clause adds nothing. *)
Definition and_opt (cap : BackendCapability) (c d : option Filter)
  : Outcome (option Filter) :=
  match c, d with
  | None, _ => Ret d
  | _, None => Ret c
  | Some f, Some g => let! _ := require_op cap OpAnd in Ret (Some (FAnd f g))
  end.

(** Modelled from the spec: step 3 of the compiler of [enforcement_filters],
    the NOT-IN predicate of one dimension: present whenever the deny list
    is non-empty, whatever the allow list. *)
Definition deny_clause (cap : BackendCapability) (fld : AbstractField)
    (denied : list string) : Outcome (option Filter) :=
  match denied with
  | [] => Ret None
  | _ :: _ =>
      let! _ := require_op cap OpNot in
      let! n := native_field cap fld in
      Ret (Some (FNot (FIn n denied)))
  end.

(** Modelled from the spec: step 3 of the compiler of [enforcement_filters],
    the IN predicate of one dimension, for a non-empty allow list. *)
Definition allow_clause (cap : BackendCapability) (fld : AbstractField)
    (allowed : list string) : Outcome (option Filter) :=
  match allowed with
  | [] => Ret None
  | _ :: _ =>
      let! n := native_field cap fld in
      Ret (Some (FIn n allowed))
  end.

(** Modelled from the spec: step 3 of the compiler of [enforcement_filters],
    one semantic dimension; with neither list no predicate is added. *)
Definition compile_dimension (cap : BackendCapability) (fld : AbstractField)
    (allowed denied : list string) : Outcome (option Filter) :=
  let! deny := deny_clause cap fld denied in
  let! allow := allow_clause cap fld allowed in
  and_opt cap deny allow.

(** The identity clause of an optional [AuthContext]. *)
Definition identity_clause (cap : BackendCapability) (auth : option AuthContext)
  : Outcome (option Filter) :=
  match auth with
  | None => Ret None
  | Some a => let! f := compile_identity cap a in Ret (Some f)
  end.

(** The clause of one dimension of an optional [SemanticContext]. *)
Definition semantic_clause (cap : BackendCapability) (fld : AbstractField)
    (allowed denied : SemanticContext → list string) (sem : option SemanticContext)
  : Outcome (option Filter) :=
  match sem with
  | None => Ret None
  | Some s => compile_dimension cap fld (allowed s) (denied s)
  end.

(** Modelled from the spec: the filter compiler of [enforcement_filters]
    (steps 1 to 5): identity clause AND (topic clause AND entity clause);
    with both contexts absent or empty the result is the empty filter. *)
Definition compile (cap : BackendCapability)
    (auth : option AuthContext) (sem : option SemanticContext) : Outcome Filter :=
  let! ident := identity_clause cap auth in
  let! topic := semantic_clause cap Topic allowed_topics denied_topics sem in
  let! entity := semantic_clause cap Entity allowed_entities denied_entities sem in
  let! semc := and_opt cap topic entity in
  let! whole := and_opt cap ident semc in
  Ret (default FAll whole).

(** The backend a retriever handle targets: the type of its store. *)
Definition backend_id (r : VectorStoreRetriever) : string :=
  vs_class_name (vectorstore r).

(** Modelled from the spec: the coordinator [apply_enforcement] of
    [enforcement_filters]: consult the registry, compile, and attach the
    compiled filter to the handle; on any error the handle is left as it
    was. *)
Definition apply_enforcement (reg : gmap string BackendCapability)
    (auth : option AuthContext) (sem : option SemanticContext)
    (r : VectorStoreRetriever) : Outcome unit * VectorStoreRetriever :=
  match get_capability reg (backend_id r) with
  | Raise e => (Raise e, r)
  | Ret cap =>
      match compile cap auth sem with
      | Raise e => (Raise e, r)
      | Ret f =>
          (Ret tt,
           mkRetriever (vectorstore r) (Some (mkCompiledFilter (backend_id r) f)))
      end
  end.

(** The labels a document carries in a metadata field. *)
Definition field_values (md : gmap string MetaVal) (fld : string) : list string :=
  match md !! fld with
  | Some (MStr s) => [s]
  | Some (MList l) => l
  | None => []
  end.

(** Whether a document with metadata [md] passes a filter, the reading of
    the filter tree that the search backend implements. *)
Fixpoint matches (f : Filter) (md : gmap string MetaVal) : bool :=
  match f with
  | FAll => true
  | FEq fld v => bool_decide (md !! fld = Some (MStr v))
  | FIn fld vs => existsb (fun v => bool_decide (v ∈ field_values md fld)) vs
  | FAnd g h => matches g md && matches h md
  | FOr g h => matches g md || matches h md
  | FNot g => negb (matches g md)
  end.

(** A backend with every operator and every field mapped. *)
Definition full_capability : BackendCapability :=
  mkCapability [OpAnd; OpOr; OpNot]
    (fun f => Some match f with
                   | Principal => "principal"
                   | Group => "group"
                   | Topic => "topic"
                   | Entity => "entity"
                   end).

(** A backend without negation. *)
Definition no_not_capability : BackendCapability :=
  mkCapability [OpAnd; OpOr] (field_map full_capability).

Definition sample_registry : gmap string BackendCapability :=
  <["X" := full_capability]> (<["Y" := no_not_capability]> ∅).

End Enforcement.

(** ** Telemetry payloads and HTTP *)

(** The language model handed to [from_chain_type]; [get_chain_details]
    reads its class name and the entries [model_name] and [model] of its
    [__dict__].  An entry may be missing, or be there and hold [None]. *)
Record LLM := mkLLM {
  llm_class : string;
  llm_model_name : option (option string);
  llm_model : option (option string)
}.

Record VectorDbDetails := mkVectorDbDetails {
  vdb_name : string;
  vdb_embedding_model : option string
}.

Record ChainDetails := mkChainDetails {
  cd_name : string;
  cd_model_name : option string;
  cd_model_vendor : string;
  cd_vector_dbs : list VectorDbDetails
}.

(** [models.App]. *)
Record App := mkApp {
  a_name : string;
  a_owner : string;
  a_description : string;
  a_runtime : string;
  a_framework : string;
  a_chains : list ChainDetails;
  a_plugin_version : string
}.

(** One entry of the [context] list of a QA record. *)
Record ContextEntry := mkContext {
  retrieved_from : option MetaVal;
  doc : string;
  vector_db : string
}.

(** [models.Qa], the prompt record sent after answering. *)
Record Qa := mkQa {
  qa_name : string;
  qa_context : list ContextEntry;
  qa_prompt : PyVal;
  qa_response : string;
  qa_prompt_time : string;
  qa_user : string;
  qa_user_identities : list string
}.

Inductive Payload :=
| PApp (app : App)
| PQa (qa : Qa).

(** The arguments of one [requests.post] call (the timeout is always 20). *)
Record Request := mkRequest {
  req_url : string;
  req_headers : gmap string string;
  req_json : Payload
}.

(** What the chain reads of a [requests.Response]; [resp_json] is what
    calling [.json()] does, which fails on a malformed body. *)
Record Response := mkResponse {
  status_code : nat;
  resp_json : Outcome string;
  request_url : string;
  request_body : option string
}.

Definition HTTPStatus_OK : nat := 200.
Definition HTTPStatus_BAD_GATEWAY : nat := 502.

Inductive LogLevel := Debug | Warning.

(** ** The world and its effects *)

(** An effect the outside can observe, recorded in program order. *)
Inductive Event :=
| EvSetFilters (auth sem : PyVal)
    (* set_enforcement_filters(self.retriever, auth, sem) is called *)
| EvSearch (is_async : bool) (r : VectorStoreRetriever) (question : PyVal)
    (* the similarity search runs on the retriever in state r *)
| EvCombine (is_async : bool) (docs : list Item) (question : PyVal)
    (* the combine-documents chain runs *)
| EvPost (req : Request)
    (* requests.post is called *)
| EvLog (lvl : LogLevel) (msg : string).

Record World := mkWorld {
  w_retriever : VectorStoreRetriever;  (* the object [self.retriever] refers to *)
  w_discover_sent : bool;              (* class attribute _discover_sent *)
  w_prompt_sent : bool;                (* class attribute _prompt_sent *)
  w_trace : list Event
}.

(** A combine-documents chain object: its [run] and [arun] methods. *)
Record BaseCombineDocumentsChain := mkCombine {
  run : list Item → PyVal → Outcome string;
  arun : list Item → PyVal → Outcome string
}.

(** What [base.py] imports or calls and the sources do not contain: the
    constants and the helper of the sibling modules, and the external
    collaborators (HTTP, the similarity search, the clock). *)
Record Env := mkEnv {
  SUPPORTED_VECTORSTORES : list PyClass;
  set_enforcement_filters :
    PyVal → PyVal → VectorStoreRetriever → Outcome unit * VectorStoreRetriever;
  APP_DISCOVER_URL : string;
  PEBBLO_CLOUD_URL : string;
  PLUGIN_VERSION : string;
  PROMPT_URL : string;
  get_runtime : string * string;        (* (framework, runtime) *)
  requests_post : Request → Outcome Response;
  get_relevant_documents : VectorStoreRetriever → PyVal → Outcome (list Item);
  aget_relevant_documents : VectorStoreRetriever → PyVal → Outcome (list Item);
  load_qa_chain : LLM → string → Outcome BaseCombineDocumentsChain;
  now_isoformat : string;
  App_validate : App → option Exn;      (* what the constructor of [App] rejects *)
  Qa_validate : Qa → option Exn         (* what the constructor of [Qa] rejects *)
}.

(** The same environment with another HTTP behaviour. *)
Definition with_post (post : Request → Outcome Response) (env : Env) : Env :=
  mkEnv (SUPPORTED_VECTORSTORES env) (set_enforcement_filters env)
    (APP_DISCOVER_URL env) (PEBBLO_CLOUD_URL env) (PLUGIN_VERSION env)
    (PROMPT_URL env) (get_runtime env) post
    (get_relevant_documents env) (aget_relevant_documents env)
    (load_qa_chain env) (now_isoformat env) (App_validate env) (Qa_validate env).

(** Computations that read and write the world and may raise. *)
Definition M (A : Type) : Type := World → Outcome A * World.

Definition ret {A} (a : A) : M A := fun w => (Ret a, w).

Definition raise {A} (e : Exn) : M A := fun w => (Raise e, w).

Definition bind {A B} (m : M A) (k : A → M B) : M B :=
  fun w =>
    match m w with
    | (Ret a, w') => k a w'
    | (Raise e, w') => (Raise e, w')
    end.

Notation "'do!' x ':=' e 'in' k" := (bind e (fun x => k))
  (at level 10, x name, e at level 200, k at level 200).

(** [try: body except Exception as e: handler(e)]; what the body did to
    the world before raising stays done. *)
Definition try_except {A} (body : M A) (handler : Exn → M A) : M A :=
  fun w =>
    match body w with
    | (Ret a, w') => (Ret a, w')
    | (Raise e, w') => handler e w'
    end.

Definition lift {A} (o : Outcome A) : M A := fun w => (o, w).

Definition emit (ev : Event) : M unit :=
  fun w =>
    (Ret tt,
     mkWorld (w_retriever w) (w_discover_sent w) (w_prompt_sent w) (w_trace w ++ [ev])).

Definition log (lvl : LogLevel) (msg : string) : M unit := emit (EvLog lvl msg).

(** ** The chain *)

(** The fields of a [PebbloRetrievalQA] object.  The field [retriever] is a
    reference to a mutable object; the object itself is [w_retriever] of the
    world.  The attributes [_discover_sent] and [_prompt_sent] are not
    fields: they live on the class, hence in the world. *)
Record PebbloRetrievalQA := mkChain {
  combine_documents_chain : BaseCombineDocumentsChain;
  input_key : string;
  output_key : string;
  return_source_documents : bool;
  auth_context_key : string;
  semantic_context_key : string;
  app_name : string;
  owner : string;
  description : string;
  api_key : option string;
  classifier_url : string
}.

(** The keyword arguments [from_chain_type] passes on to the constructor.
    [kw_retriever] tells whether the keyword [retriever] is among them; the
    object it names is the retriever of the world. *)
Record Kwargs := mkKwargs {
  kw_input_key : string;
  kw_output_key : string;
  kw_return_source_documents : bool;
  kw_auth_context_key : string;
  kw_semantic_context_key : string;
  kw_retriever : bool
}.

(** The defaults of the class, with a retriever given. *)
Definition default_kwargs : Kwargs :=
  mkKwargs "query" "result" false "auth_context" "semantic_context" true.

(** [kwargs.get("retriever")]. *)
Definition retriever_kwarg (kwargs : Kwargs) (w : World) : option VectorStoreRetriever :=
  if kw_retriever kwargs then Some (w_retriever w) else None.

(** Reading [obj._discover_sent] and [obj._prompt_sent] on an instance:
    the instance has no attribute of that name, so the lookup ends at the
    class attribute. *)
Definition get_discover_sent (self : PebbloRetrievalQA) (w : World) : bool :=
  w_discover_sent w.

Definition get_prompt_sent (self : PebbloRetrievalQA) (w : World) : bool :=
  w_prompt_sent w.

(** [set_discover_sent]: [cls._discover_sent = True]. *)
Definition set_discover_sent : M unit :=
  fun w => (Ret tt, mkWorld (w_retriever w) true (w_prompt_sent w) (w_trace w)).

(** [set_prompt_sent]: [cls._prompt_sent = True]. *)
Definition set_prompt_sent : M unit :=
  fun w => (Ret tt, mkWorld (w_retriever w) (w_discover_sent w) true (w_trace w)).

(** [if api_key:] on an [Optional[str]]. *)
Definition api_key_given (k : option string) : option string :=
  match k with
  | Some s => if bool_decide (s = "") then None else Some s
  | None => None
  end.

Definition base_headers : gmap string string :=
  <["Content-Type" := "application/json"]> (<["Accept" := "application/json"]> ∅).

(** [status in [HTTPStatus.OK, HTTPStatus.BAD_GATEWAY]]. *)
Definition status_accepted (resp : Response) : bool :=
  bool_decide (status_code resp = HTTPStatus_OK)
  || bool_decide (status_code resp = HTTPStatus_BAD_GATEWAY).

Section Chain.

Context (env : Env).

(** [validate_vectorstore]: the validator of the field [retriever]. *)
Definition validate_vectorstore (retriever : VectorStoreRetriever)
  : Outcome VectorStoreRetriever :=
  if negb (existsb (isinstance (vectorstore retriever)) (SUPPORTED_VECTORSTORES env))
  then
    Raise (mkExn ValueError
             ("Vectorstore must be an instance of one of the supported vectorstores: "
              +:+ String.concat ", " (map class_name (SUPPORTED_VECTORSTORES env))
              +:+ ". Got " +:+ vs_class_name (vectorstore retriever) +:+ " instead."))
  else Ret retriever.

(** [cls(...)]: building the object runs the validator on the retriever
    handed in, which is the retriever object of the world. *)
Definition construct (fields : PebbloRetrievalQA) : M PebbloRetrievalQA :=
  do! r := (fun w => (validate_vectorstore (w_retriever w), w)) in
  ret fields.

(** [requests.post(url, headers=..., json=..., timeout=20)]. *)
Definition post (req : Request) : M Response :=
  do! _ := emit (EvPost req) in
  lift (requests_post env req).

(** The second [logger.debug] call of each block: its arguments are
    evaluated first, and [resp.json()] is one of them. *)
Definition debug_response (fmt : string) (resp : Response) : M unit :=
  do! body := lift (resp_json resp) in
  log Debug fmt.

(** [e.model] on an embeddings object. *)
Definition getattr_model (e : Embeddings) : Outcome string :=
  match emb_model e with
  | Some m => Ret m
  | None => Raise (mkExn AttributeError "model")
  end.

(** The entry [embedding_model] of [get_chain_details]: [hasattr] looks at
    [_embeddings] and [_embedding] only, the attribute [model] is then read
    without a test. *)
Definition embedding_model (vs : VectorStore) : Outcome (option string) :=
  match vs_embeddings vs with
  | Some e => let! m := getattr_model e in Ret (Some m)
  | None =>
      match vs_embedding vs with
      | Some e => let! m := getattr_model e in Ret (Some m)
      | None => Ret None
      end
  end.

(** [llm_dict.get("model_name", llm_dict.get("model"))]: an entry that is
    there wins, also when it holds [None]. *)
Definition llm_dict_model (llm : LLM) : option string :=
  match llm_model_name llm with
  | Some v => v
  | None =>
      match llm_model llm with
      | Some v => v
      | None => None
      end
  end.

(** [get_chain_details]; [retriever] is [kwargs["retriever"]], which is
    missing when the caller gave none. *)
Definition get_chain_details (llm : LLM) (retriever : option VectorStoreRetriever)
  : Outcome (list ChainDetails) :=
  let model_name := llm_dict_model llm in
  let vendor := llm_class llm in
  let! r := match retriever with
            | Some r => Ret r
            | None => Raise (mkExn KeyError "retriever")
            end in
  let name := vs_class_name (vectorstore r) in
  let! embedding := embedding_model (vectorstore r) in
  Ret [ mkChainDetails "PebbloRetrievalQA" model_name vendor
          [ mkVectorDbDetails name embedding ] ].

(** [_get_app_details]: the chain details, then the constructor of
    [App]. *)
Definition _get_app_details (app_name owner description : string) (llm : LLM)
    (retriever : option VectorStoreRetriever) : Outcome App :=
  let '(framework, runtime) := get_runtime env in
  let! chains := get_chain_details llm retriever in
  let app := mkApp app_name owner description runtime framework chains
               (PLUGIN_VERSION env) in
  match App_validate env app with
  | Some e => Raise e
  | None => Ret app
  end.

(** [_send_discover]. *)
Definition _send_discover (app : App) (api_key : option string)
    (classifier_url : string) : M unit :=
  let headers := base_headers in
  let payload := PApp app in
  let app_discover_url := classifier_url +:+ APP_DISCOVER_URL env in
  do! _ :=
    try_except
      (do! pebblo_resp := post (mkRequest app_discover_url headers payload) in
       do! _ := log Debug "discover-payload: %s" in
       do! _ := debug_response "send_discover[local]" pebblo_resp in
       if status_accepted pebblo_resp then set_discover_sent
       else log Warning ("Received unexpected HTTP response code: "
                         +:+ pretty (status_code pebblo_resp)))
      (fun e =>
         if is_request_exception e
         then log Warning "Unable to reach pebblo server."
         else log Warning "An Exception caught in _send_discover: local %s")
  in
  match api_key_given api_key with
  | Some key =>
      try_except
        (let headers := <["x-api-key" := key]> headers in
         let pebblo_cloud_url := PEBBLO_CLOUD_URL env +:+ APP_DISCOVER_URL env in
         do! pebblo_cloud_response :=
           post (mkRequest pebblo_cloud_url headers payload) in
         debug_response "send_discover[cloud]" pebblo_cloud_response)
        (fun e =>
           if is_request_exception e
           then log Warning "Unable to reach Pebblo cloud server."
           else log Warning "An Exception caught in _send_discover: cloud %s")
  | None => ret tt
  end.

(** [_send_prompt]. *)
Definition _send_prompt (self : PebbloRetrievalQA) (qa_payload : Qa) : M unit :=
  let headers := base_headers in
  let app_discover_url := classifier_url self +:+ PROMPT_URL env in
  do! _ :=
    try_except
      (do! pebblo_resp := post (mkRequest app_discover_url headers (PQa qa_payload)) in
       do! _ := log Debug "prompt-payload: %s" in
       do! _ := debug_response "send_prompt[local]" pebblo_resp in
       if status_accepted pebblo_resp then set_prompt_sent
       else log Warning ("Received unexpected HTTP response code: "
                         +:+ pretty (status_code pebblo_resp)))
      (fun e =>
         if is_request_exception e
         then log Warning "Unable to reach pebblo server."
         else log Warning "An Exception caught in _send_discover: local %s")
  in
  match api_key_given (api_key self) with
  | Some key =>
      try_except
        (let headers := <["x-api-key" := key]> headers in
         let pebblo_cloud_url := PEBBLO_CLOUD_URL env +:+ PROMPT_URL env in
         do! pebblo_cloud_response :=
           post (mkRequest pebblo_cloud_url headers (PQa qa_payload)) in
         debug_response "send_prompt[cloud]" pebblo_cloud_response)
        (fun e =>
           if is_request_exception e
           then log Warning "Unable to reach Pebblo cloud server."
           else log Warning "An Exception caught in _send_prompt: cloud %s")
  | None => ret tt
  end.

(** [from_chain_type]. *)
Definition from_chain_type (llm : LLM) (app_name description owner : string)
    (chain_type : string) (api_key : option string) (classifier_url : string)
    (kwargs : Kwargs) : M PebbloRetrievalQA :=
  do! combine_documents_chain := lift (load_qa_chain env llm chain_type) in
  do! app := (fun w =>
                (_get_app_details app_name owner description llm
                   (retriever_kwarg kwargs w), w)) in
  do! _ := _send_discover app api_key classifier_url in
  construct
    (mkChain combine_documents_chain (kw_input_key kwargs) (kw_output_key kwargs)
       (kw_return_source_documents kwargs) (kw_auth_context_key kwargs)
       (kw_semantic_context_key kwargs) app_name owner description api_key
       classifier_url).

(** The call [set_enforcement_filters(self.retriever, auth, sem)]: the
    helper works on the retriever object in place. *)
Definition enforce (auth_context semantic_context : PyVal) : M unit :=
  do! _ := emit (EvSetFilters auth_context semantic_context) in
  fun w =>
    let '(res, r) :=
      set_enforcement_filters env auth_context semantic_context (w_retriever w) in
    (res, mkWorld r (w_discover_sent w) (w_prompt_sent w) (w_trace w)).

(** [self.retriever.get_relevant_documents(question, ...)] and its
    asynchronous twin: the search sees the retriever as it is now. *)
Definition search (is_async : bool) (question : PyVal) : M (list Item) :=
  fun w =>
    let r := w_retriever w in
    bind (emit (EvSearch is_async r question))
      (fun _ => lift (if is_async then aget_relevant_documents env r question
                      else get_relevant_documents env r question)) w.

(** [_get_docs]. *)
Definition _get_docs (self : PebbloRetrievalQA)
    (question auth_context semantic_context : PyVal) : M (list Item) :=
  do! _ := enforce auth_context semantic_context in
  search false question.

(** [_aget_docs]. *)
Definition _aget_docs (self : PebbloRetrievalQA)
    (question auth_context semantic_context : PyVal) : M (list Item) :=
  do! _ := enforce auth_context semantic_context in
  search true question.

(** [inputs[key]]. *)
Definition getitem (inputs : gmap string PyVal) (key : string) : Outcome PyVal :=
  match inputs !! key with
  | Some v => Ret v
  | None => Raise (mkExn KeyError key)
  end.

(** [v.user_id]: only an [AuthContext] has the attribute. *)
Definition getattr_user_id (v : PyVal) : Outcome string :=
  match v with
  | VAuthContext a => Ret (user_id a)
  | _ => Raise (mkExn AttributeError "user_id")
  end.

(** [v.user_auth]. *)
Definition getattr_user_auth (v : PyVal) : Outcome (list string) :=
  match v with
  | VAuthContext a => Ret (user_auth a)
  | _ => Raise (mkExn AttributeError "user_auth")
  end.

(** [hasattr(v, "user_auth")]. *)
Definition hasattr_user_auth (v : PyVal) : bool :=
  match v with
  | VAuthContext _ => true
  | _ => false
  end.

(** The [context] entry of the QA record: one item per retrieved
    [Document], other objects are skipped. *)
Definition qa_context_of (vector_db : string) (docs : list Item)
  : list ContextEntry :=
  flat_map (fun d => match d with
                     | IDoc d => [mkContext (metadata d !! "source") (page_content d) vector_db]
                     | IOther _ => []
                     end) docs.

(** The dictionary [qa] of [_call] (lines 114 to 134); the entries are
    evaluated in the order written. *)
Definition qa_dict (self : PebbloRetrievalQA) (retriever : VectorStoreRetriever)
    (prompt_time : string) (question : PyVal) (answer : string) (docs : list Item)
    (auth_context : PyVal) : Outcome Qa :=
  let context := qa_context_of (vs_class_name (vectorstore retriever)) docs in
  let! user := if truthy auth_context then getattr_user_id auth_context
               else Ret "unknown" in
  let! user_identities :=
    if truthy auth_context && hasattr_user_auth auth_context
    then getattr_user_auth auth_context
    else Ret [] in
  Ret (mkQa (app_name self) context question answer prompt_time user user_identities).

(** The dictionary and then the constructor call on it (line 135), which
    validates the entries and stands outside every [try]. *)
Definition qa_record (self : PebbloRetrievalQA) (retriever : VectorStoreRetriever)
    (prompt_time : string) (question : PyVal) (answer : string) (docs : list Item)
    (auth_context : PyVal) : Outcome Qa :=
  let! qa := qa_dict self retriever prompt_time question answer docs auth_context in
  match Qa_validate env qa with
  | Some e => Raise e
  | None => Ret qa
  end.

(** [self.combine_documents_chain.run(...)] and [.arun(...)]. *)
Definition combine (is_async : bool) (self : PebbloRetrievalQA) (docs : list Item)
    (question : PyVal) : M string :=
  do! _ := emit (EvCombine is_async docs question) in
  lift (if is_async then arun (combine_documents_chain self) docs question
        else run (combine_documents_chain self) docs question).

(** The dictionary both [_call] and [_acall] return. *)
Definition result_dict (self : PebbloRetrievalQA) (answer : string) (docs : list Item)
  : gmap string PyVal :=
  if return_source_documents self
  then <["source_documents" := VDocs docs]> (<[output_key self := VStr answer]> ∅)
  else <[output_key self := VStr answer]> ∅.

(** [_call].  The test [accepts_run_manager] only decides whether the
    callback manager is handed to [_get_docs]; both branches make the same
    call otherwise. *)
Definition _call (self : PebbloRetrievalQA) (inputs : gmap string PyVal)
  : M (gmap string PyVal) :=
  let prompt_time := now_isoformat env in
  do! question := lift (getitem inputs (input_key self)) in
  let auth_context := default (VDict []) (inputs !! auth_context_key self) in
  let semantic_context := default (VDict []) (inputs !! semantic_context_key self) in
  do! docs := _get_docs self question auth_context semantic_context in
  do! answer := combine false self docs question in
  do! qa_payload := (fun w =>
                       (qa_record self (w_retriever w) prompt_time question answer docs
                          auth_context, w)) in
  do! _ := _send_prompt self qa_payload in
  ret (result_dict self answer docs).

(** [_acall]: the defaults of the two contexts are [None] here, and no
    record of the exchange is built. *)
Definition _acall (self : PebbloRetrievalQA) (inputs : gmap string PyVal)
  : M (gmap string PyVal) :=
  do! question := lift (getitem inputs (input_key self)) in
  let auth_context := default VNone (inputs !! auth_context_key self) in
  let semantic_context := default VNone (inputs !! semantic_context_key self) in
  do! docs := _aget_docs self question auth_context semantic_context in
  do! answer := combine true self docs question in
  ret (result_dict self answer docs).

(** [output_keys]. *)
Definition output_keys (self : PebbloRetrievalQA) : list string :=
  let _output_keys := [output_key self] in
  if return_source_documents self then _output_keys ++ ["source_documents"]
  else _output_keys.

(** [input_keys]. *)
Definition input_keys (self : PebbloRetrievalQA) : list string :=
  [input_key self; auth_context_key self; semantic_context_key self].

End Chain.

(** ** The specified coordinator as the helper of the chain *)

(** Modelled from the spec: how the coordinator of [enforcement_filters]
    reads the auth context it is handed: [None] is an absent context, an
    [AuthContext] object is that context, and any other value is a malformed
    context, refused with [InvalidConstraintError]. *)
Definition as_auth_context (v : PyVal) : Outcome (option AuthContext) :=
  match v with
  | VNone => Ret None
  | VAuthContext a => Ret (Some a)
  | _ => Raise (mkExn InvalidConstraintError "auth_context")
  end.

(** Modelled from the spec: the same for the semantic context. *)
Definition as_semantic_context (v : PyVal) : Outcome (option SemanticContext) :=
  match v with
  | VNone => Ret None
  | VSemanticContext s => Ret (Some s)
  | _ => Raise (mkExn InvalidConstraintError "semantic_context")
  end.

(** Modelled from the spec: [set_enforcement_filters] of the module
    [enforcement_filters], which is not among the sources, as the
    coordinator's [apply_enforcement] on the two contexts; a malformed
    context is an error and leaves the handle as it was. *)
Definition spec_set_enforcement_filters (reg : gmap string Enforcement.BackendCapability)
    (auth sem : PyVal) (r : VectorStoreRetriever)
  : Outcome unit * VectorStoreRetriever :=
  match as_auth_context auth, as_semantic_context sem with
  | Ret a, Ret s => Enforcement.apply_enforcement reg a s r
  | Raise e, _ => (Raise e, r)
  | _, Raise e => (Raise e, r)
  end.

(** ** A concrete deployment, used to run the model *)

Module Sample.

(** The class of the given name defined by the vector store library. *)
Definition class (name : string) : PyClass := mkClass 0 name.

Definition store (cls : string) : VectorStore :=
  mkVectorStore (class cls) [class "VectorStore"; class "object"]
    (Some (mkEmbeddings (Some "embed-1"))) None.

(** What the constructor of [Qa] takes here: the prompt is a string and
    every [retrieved_from] is a string or [None]. *)
Definition qa_validate (qa : Qa) : option Exn :=
  match qa_prompt qa with
  | VStr _ =>
      if forallb (fun c => match retrieved_from c with
                           | Some (MList _) => false
                           | _ => true
                           end) (qa_context qa)
      then None
      else Some (mkExn ValidationError "context.retrieved_from")
  | _ => Some (mkExn ValidationError "prompt.data")
  end.

Definition retriever (cls : string) : VectorStoreRetriever :=
  mkRetriever (store cls) None.

Definition alice : AuthContext := mkAuthContext "alice" ["team-a"].

Definition no_finance : SemanticContext := mkSemanticContext [] ["finance"] [] [].

Definition memo : Document :=
  mkDocument "quarterly memo" (<["source" := MStr "memo.pdf"]> ∅).

Definition ok_response : Response := mkResponse 200 (Ret "{}") "http://pebblo" None.

Definition qa_chain : BaseCombineDocumentsChain :=
  mkCombine (fun _ _ => Ret "forty-two") (fun _ _ => Ret "forty-two").

Definition env : Env :=
  mkEnv [class "X"; class "Y"]
    (spec_set_enforcement_filters Enforcement.sample_registry)
    "/v1/app/discover" "https://api.pebblo.example" "0.1.1" "/v1/prompt"
    ("langchain", "python")
    (fun _ => Ret ok_response)
    (fun _ _ => Ret [IDoc memo])
    (fun _ _ => Ret [IDoc memo])
    (fun _ _ => Ret qa_chain)
    "2024-05-01T00:00:00"
    (fun _ => None)
    qa_validate.

Definition chain : PebbloRetrievalQA :=
  mkChain qa_chain "query" "result" true "auth_context" "semantic_context"
    "app" "owner" "demo" None "http://localhost:8000".

Definition world (cls : string) : World := mkWorld (retriever cls) false false [].

(** A request with both contexts, and one with the question alone. *)
Definition inputs : gmap string PyVal :=
  <["query" := VStr "q"]>
    (<["auth_context" := VAuthContext alice]>
       (<["semantic_context" := VSemanticContext no_finance]> ∅)).

Definition bare_inputs : gmap string PyVal := <["query" := VStr "q"]> ∅.

(** A request that says outright that it has no contexts. *)
Definition anonymous_inputs : gmap string PyVal :=
  <["query" := VStr "q"]>
    (<["auth_context" := VNone]> (<["semantic_context" := VNone]> ∅)).

(** An environment whose HTTP layer is down. *)
Definition offline : Env :=
  with_post (fun _ => Raise (mkExn RequestException "connection refused")) env.

End Sample.

(** Deployments in which a collaborator fails. *)
Module Faulty.

(** The similarity search times out. *)
Definition search_down : Env :=
  mkEnv (SUPPORTED_VECTORSTORES Sample.env) (set_enforcement_filters Sample.env)
    (APP_DISCOVER_URL Sample.env) (PEBBLO_CLOUD_URL Sample.env)
    (PLUGIN_VERSION Sample.env) (PROMPT_URL Sample.env) (get_runtime Sample.env)
    (requests_post Sample.env)
    (fun _ _ => Raise (mkExn OtherException "search timed out"))
    (fun _ _ => Raise (mkExn OtherException "search timed out"))
    (load_qa_chain Sample.env) (now_isoformat Sample.env)
    (App_validate Sample.env) (Qa_validate Sample.env).

(** The chain type is unknown to [load_qa_chain]. *)
Definition no_chain_type : Env :=
  mkEnv (SUPPORTED_VECTORSTORES Sample.env) (set_enforcement_filters Sample.env)
    (APP_DISCOVER_URL Sample.env) (PEBBLO_CLOUD_URL Sample.env)
    (PLUGIN_VERSION Sample.env) (PROMPT_URL Sample.env) (get_runtime Sample.env)
    (requests_post Sample.env)
    (get_relevant_documents Sample.env) (aget_relevant_documents Sample.env)
    (fun _ _ => Raise (mkExn ValueError "unknown chain type"))
    (now_isoformat Sample.env) (App_validate Sample.env) (Qa_validate Sample.env).

(** A chain whose language model call fails. *)
Definition broken_chain : PebbloRetrievalQA :=
  mkChain (mkCombine (fun _ _ => Raise (mkExn OtherException "model overloaded"))
             (fun _ _ => Raise (mkExn OtherException "model overloaded")))
    "query" "result" true "auth_context" "semantic_context"
    "app" "owner" "demo" None "http://localhost:8000".

(** A chain with a cloud API key. *)
Definition keyed_chain : PebbloRetrievalQA :=
  mkChain Sample.qa_chain "query" "result" false "auth_context" "semantic_context"
    "app" "owner" "demo" (Some "secret") "http://localhost:8000".

(** A request whose auth context is a plain dictionary. *)
Definition dict_inputs : gmap string PyVal :=
  <["query" := VStr "q"]> (<["auth_context" := VDict [("user_id", "alice")]]> ∅).

End Faulty.

(** ** What a computation may do to the world *)

(** The trace only grows, and every new event satisfies [P]. *)
Definition emits_only {A} (P : Event → Prop) (m : M A) : Prop :=
  ∀ w, ∃ evs, w_trace (m w).2 = w_trace w ++ evs ∧ Forall P evs.

(** The retriever object is left as it was. *)
Definition keeps_retriever {A} (m : M A) : Prop :=
  ∀ w, w_retriever (m w).2 = w_retriever w.

(** The computation returns; it does not raise. *)
Definition never_raises {A} (m : M A) : Prop :=
  ∀ w, ∃ a, (m w).1 = Ret a.

(** Telemetry: HTTP posts and log lines. *)
Definition is_telemetry (ev : Event) : Prop :=
  match ev with
  | EvPost _ | EvLog _ _ => True
  | _ => False
  end.

Definition is_post (ev : Event) : Prop :=
  match ev with
  | EvPost _ => True
  | _ => False
  end.

Definition is_search (ev : Event) : Prop :=
  match ev with
  | EvSearch _ _ _ => True
  | _ => False
  end.

Definition is_set_filters (ev : Event) : Prop :=
  match ev with
  | EvSetFilters _ _ => True
  | _ => False
  end.

(** The steps of a retrieval: neither a post nor a log line. *)
Definition is_retrieval (ev : Event) : Prop :=
  match ev with
  | EvSetFilters _ _ | EvSearch _ _ _ | EvCombine _ _ _ => True
  | _ => False
  end.

(** Every post among the events carries the record [qa]. *)
Definition carries (qa : Qa) (ev : Event) : Prop :=
  match ev with
  | EvPost req => req_json req = PQa qa
  | _ => True
  end.

(** The first new event is [ev]. *)
Definition starts_with {A} (ev : Event) (m : M A) : Prop :=
  ∀ w, ∃ evs, w_trace (m w).2 = w_trace w ++ ev :: evs.

(** Whether the classifier accepted a payload: the post returned, the body
    could be read, and the status is OK or BAD_GATEWAY. *)
Definition accepted (o : Outcome Response) : bool :=
  match o with
  | Ret resp =>
      match resp_json resp with
      | Ret _ => status_accepted resp
      | Raise _ => false
      end
  | Raise _ => false
  end.

(** A clause that is present and turns the document down. *)
Definition rejects (c : option Filter) (md : gmap string MetaVal) : Prop :=
  ∃ g, c = Some g ∧ Enforcement.matches g md = false.

(** The world after the combine-documents chain ran. *)
Definition combined (is_async : bool) (docs : list Item) (question : PyVal) (w : World)
  : World :=
  mkWorld (w_retriever w) (w_discover_sent w) (w_prompt_sent w)
    (w_trace w ++ [EvCombine is_async docs question]).

(** The requests posted, in order. *)
Definition posts_of (evs : list Event) : list Request :=
  flat_map (fun ev => match ev with
                      | EvPost req => [req]
                      | _ => []
                      end) evs.

(** * Properties of the filter compiler *)

Module EnforcementFacts.
Import Enforcement.

Lemma and_then_ret {A B} (x : Outcome A) (k : A → Outcome B) (b : B) :
  and_then x k = Ret b → ∃ a, x = Ret a ∧ k a = Ret b.
Proof. destruct x as [a|e]; simpl; [eauto | discriminate]. Qed.

(** Reading a successful [let!] chain backwards, one step at a time. *)
Ltac unret H :=
  repeat match type of H with
         | and_then _ _ = Ret _ =>
             let a := fresh "v" in
             let Ha := fresh "Hv" in
             apply and_then_ret in H as (a & Ha & H)
         end.

Lemma require_op_ret cap op u : require_op cap op = Ret u → op ∈ supported_ops cap.
Proof. unfold require_op. case_bool_decide; [done | discriminate]. Qed.

Lemma require_op_supported cap op : op ∈ supported_ops cap → require_op cap op = Ret tt.
Proof. intros H. unfold require_op. by rewrite bool_decide_eq_true_2. Qed.

Lemma native_field_ret cap fld n : native_field cap fld = Ret n ↔ field_map cap fld = Some n.
Proof.
  unfold native_field. destruct (field_map cap fld); split; intros H;
    try discriminate; congruence.
Qed.

Lemma matches_FIn fld vs md :
  matches (FIn fld vs) md = true ↔ ∃ x, x ∈ vs ∧ x ∈ field_values md fld.
Proof.
  simpl. rewrite existsb_exists. split.
  - intros (x & Hin & Hx). exists x. split; [by apply list_elem_of_In |].
    by apply bool_decide_eq_true_1 in Hx.
  - intros (x & Hin & Hx). exists x. split; [by apply list_elem_of_In |].
    by apply bool_decide_eq_true_2.
Qed.

Lemma deny_clause_rejects cap fld denied c n label md :
  deny_clause cap fld denied = Ret c →
  field_map cap fld = Some n →
  label ∈ denied → label ∈ field_values md n →
  rejects c md.
Proof.
  intros Hc Hn Hd Hl. unfold deny_clause in Hc.
  destruct denied as [|d ds]; [by apply not_elem_of_nil in Hd |].
  unret Hc. apply native_field_ret in Hv0. injection Hc as <-.
  assert (v0 = n) as -> by congruence.
  eexists. split; [reflexivity |].
  change (negb (matches (FIn n (d :: ds)) md) = false).
  apply negb_false_iff, matches_FIn. eauto.
Qed.

Lemma and_opt_rejects cap c d r md :
  and_opt cap c d = Ret r → rejects c md ∨ rejects d md → rejects r md.
Proof.
  intros Hr Hcd. destruct c as [f|], d as [g|]; simpl in Hr.
  - unret Hr. injection Hr as <-. eexists. split; [reflexivity |]. simpl.
    destruct Hcd as [(? & [= <-] & ->) | (? & [= <-] & ->)];
      [done | apply andb_false_r].
  - injection Hr as <-. destruct Hcd as [H | (? & [=] & _)]. exact H.
  - injection Hr as <-. destruct Hcd as [(? & [=] & _) | H]. exact H.
  - injection Hr as <-. destruct Hcd as [(? & [=] & _) | (? & [=] & _)].
Qed.

Lemma compile_dimension_rejects cap fld allowed denied c n label md :
  compile_dimension cap fld allowed denied = Ret c →
  field_map cap fld = Some n →
  label ∈ denied → label ∈ field_values md n →
  rejects c md.
Proof.
  intros Hc Hn Hd Hl. unfold compile_dimension in Hc. unret Hc.
  eapply and_opt_rejects; [exact Hc |]. left.
  eapply deny_clause_rejects; eauto.
Qed.

(** The two scenarios of the written specification. *)
Example scenario_full_backend :
  compile full_capability (Some Sample.alice) (Some Sample.no_finance)
  = Ret (FAnd (FOr (FEq "principal" "alice") (FIn "group" ["team-a"]))
              (FNot (FIn "topic" ["finance"]))).
Proof. vm_compute. reflexivity. Qed.

Example scenario_no_negation :
  compile no_not_capability (Some Sample.alice) (Some Sample.no_finance)
  = Raise (mkExn UnsupportedFilterOperatorError "operator").
Proof. vm_compute. reflexivity. Qed.

(** C3. Deny overrides allow: when the compiler succeeds on a semantic
    context, a document that carries a label of [denied_topics] in the
    topic field (a label of [denied_entities] in the entity field) does not
    pass the compiled filter, and this does not depend on the allow list, so
    it holds in particular for a label that is in both lists. *)
Theorem denied_label_excluded cap auth sem cf n label md :
  compile cap auth (Some sem) = Ret cf →
  (label ∈ denied_topics sem ∧ field_map cap Topic = Some n)
  ∨ (label ∈ denied_entities sem ∧ field_map cap Entity = Some n) →
  label ∈ field_values md n →
  matches cf md = false.
Proof.
  intros Hc Hden Hl. unfold compile in Hc. unret Hc.
  rename v into ident, v0 into topic, v1 into entity, v2 into semc, v3 into whole.
  simpl in Hv0, Hv1.
  assert (rejects semc md) as Hsem.
  { eapply and_opt_rejects; [exact Hv2 |].
    destruct Hden as [[Hd Hn] | [Hd Hn]].
    - left. eapply compile_dimension_rejects; eauto.
    - right. eapply compile_dimension_rejects; eauto. }
  assert (rejects whole md) as (g & -> & Hg).
  { eapply and_opt_rejects; [exact Hv3 |]. by right. }
  injection Hc as <-. exact Hg.
Qed.

(** C3, run: "finance" is both allowed and denied, the backend supports
    every operator, and a document about finance is turned down. *)
Lemma denied_label_excluded_witness :
  matches
    (FAnd (FOr (FEq "principal" "alice") (FIn "group" ["team-a"]))
          (FAnd (FNot (FIn "topic" ["finance"])) (FIn "topic" ["finance"; "hr"])))
    (<["topic" := MList ["finance"]]> (<["principal" := MStr "alice"]> ∅)) = false.
Proof.
  apply (denied_label_excluded full_capability (Some Sample.alice)
           (mkSemanticContext ["finance"; "hr"] ["finance"] [] [])
           _ "topic" "finance").
  - vm_compute. reflexivity.
  - left. split; [apply list_elem_of_here | reflexivity].
  - vm_compute. apply list_elem_of_here.
Defined.

(** C5. The identity clause: on a backend that supports OR and maps the
    principal and the group field, compiling the identity clause succeeds,
    and a document passes it exactly when its principal field equals
    [user_id] or one of the entries of [user_auth] is among its groups.
    When [user_auth] is empty this is exactly a match on [user_id]. *)
Theorem identity_clause_matches cap a p g :
  OpOr ∈ supported_ops cap →
  field_map cap Principal = Some p →
  field_map cap Group = Some g →
  ∃ f, compile_identity cap a = Ret f
       ∧ ∀ md,
           (matches f md = true
            ↔ md !! p = Some (MStr (user_id a))
              ∨ ∃ x, x ∈ user_auth a ∧ x ∈ field_values md g)
           ∧ (user_auth a = [] →
              (matches f md = true ↔ md !! p = Some (MStr (user_id a)))).
Proof.
  intros Hor Hp Hg. unfold compile_identity.
  rewrite (require_op_supported _ _ Hor). simpl.
  rewrite (proj2 (native_field_ret _ _ _) Hp), (proj2 (native_field_ret _ _ _) Hg).
  simpl. eexists. split; [reflexivity |]. intros md.
  assert (matches (FOr (FEq p (user_id a)) (FIn g (user_auth a))) md = true
          ↔ md !! p = Some (MStr (user_id a))
            ∨ ∃ x, x ∈ user_auth a ∧ x ∈ field_values md g) as Hiff.
  { rewrite <- matches_FIn.
    change (matches (FOr (FEq p (user_id a)) (FIn g (user_auth a))) md)
      with (bool_decide (md !! p = Some (MStr (user_id a)))
            || matches (FIn g (user_auth a)) md).
    by rewrite orb_true_iff, bool_decide_eq_true. }
  split; [exact Hiff |].
  intros Hempty. rewrite Hiff, Hempty. split; [| by left].
  intros [H | (x & Hx & _)]; [exact H | by apply not_elem_of_nil in Hx].
Qed.

(** C5, run: alice of team-a on the fully capable backend. *)
Lemma identity_clause_matches_witness :
  ∃ f, compile_identity full_capability Sample.alice = Ret f
       ∧ ∀ md,
           (matches f md = true
            ↔ md !! "principal" = Some (MStr "alice")
              ∨ ∃ x, x ∈ ["team-a"] ∧ x ∈ field_values md "group")
           ∧ (["team-a"] = [] →
              (matches f md = true ↔ md !! "principal" = Some (MStr "alice"))).
Proof.
  apply (identity_clause_matches full_capability Sample.alice "principal" "group").
  - vm_compute. apply list_elem_of_further, list_elem_of_here.
  - reflexivity.
  - reflexivity.
Defined.

(** A principal without groups is still matched on [user_id] alone. *)
Example lonely_principal_matches :
  ∃ f, compile_identity full_capability (mkAuthContext "bob" []) = Ret f
       ∧ matches f (<["principal" := MStr "bob"]> ∅) = true
       ∧ matches f (<["principal" := MStr "eve"]> ∅) = false.
Proof. eexists. vm_compute. done. Qed.

(** C7. Compilation is a function of the contexts and the backend alone,
    and attaching is idempotent: (1) applying enforcement a second time
    with the same contexts, before any search, gives the same outcome and
    leaves the handle exactly as the first application left it; (2) the
    outcome, and on success the whole handle with its attached filter, do
    not depend on what filter the handle carried before. *)
Theorem apply_enforcement_deterministic_idempotent reg auth sem :
  (∀ r, apply_enforcement reg auth sem (apply_enforcement reg auth sem r).2
        = apply_enforcement reg auth sem r)
  ∧ (∀ vs f1 f2,
       (apply_enforcement reg auth sem (mkRetriever vs f1)).1
       = (apply_enforcement reg auth sem (mkRetriever vs f2)).1
       ∧ ((apply_enforcement reg auth sem (mkRetriever vs f1)).1 = Ret tt →
          (apply_enforcement reg auth sem (mkRetriever vs f1)).2
          = (apply_enforcement reg auth sem (mkRetriever vs f2)).2)).
Proof.
  split.
  - intros r. unfold apply_enforcement at 2.
    destruct (get_capability reg (backend_id r)) as [cap|e] eqn:Hcap; simpl.
    + destruct (compile cap auth sem) as [f|e] eqn:Hf; simpl.
      * unfold apply_enforcement. unfold backend_id in *. simpl.
        by rewrite Hcap, Hf.
      * unfold apply_enforcement. by rewrite Hcap, Hf.
    + unfold apply_enforcement. by rewrite Hcap.
  - intros vs f1 f2. unfold apply_enforcement, backend_id. simpl.
    destruct (get_capability reg (vs_class_name vs)) as [cap|e]; simpl.
    + destruct (compile cap auth sem) as [f|e]; simpl; [done |].
      split; [done | discriminate].
    + split; [done | discriminate].
Qed.

(** The compiled filter of the first scenario, attached twice. *)
Example attach_twice :
  let once := apply_enforcement sample_registry (Some Sample.alice)
                (Some Sample.no_finance) (Sample.retriever "X") in
  once.1 = Ret tt
  ∧ search_filter once.2
    = Some (mkCompiledFilter "X"
              (FAnd (FOr (FEq "principal" "alice") (FIn "group" ["team-a"]))
                    (FNot (FIn "topic" ["finance"]))))
  ∧ apply_enforcement sample_registry (Some Sample.alice)
      (Some Sample.no_finance) once.2 = once.
Proof. vm_compute. done. Qed.

End EnforcementFacts.

(** * Properties of the chain *)

Section MonadFacts.

Context {A B : Type}.

Lemma bind_unfold (m : M A) (k : A → M B) w :
  bind m k w = match m w with
               | (Ret a, w') => k a w'
               | (Raise e, w') => (Raise e, w')
               end.
Proof. reflexivity. Qed.

Lemma bind_ret_inv (m : M A) (k : A → M B) w b w' :
  bind m k w = (Ret b, w') → ∃ a w1, m w = (Ret a, w1) ∧ k a w1 = (Ret b, w').
Proof.
  rewrite bind_unfold. destruct (m w) as [[a|e] w1]; [eauto | discriminate].
Qed.

Lemma bind_raise (m : M A) (k : A → M B) w e w' :
  m w = (Raise e, w') → bind m k w = (Raise e, w').
Proof. intros H. by rewrite bind_unfold, H. Qed.

Lemma bind_ret (m : M A) (k : A → M B) w a w' :
  m w = (Ret a, w') → bind m k w = k a w'.
Proof. intros H. by rewrite bind_unfold, H. Qed.

Lemma emits_only_bind P (m : M A) (k : A → M B) :
  emits_only P m → (∀ a, emits_only P (k a)) → emits_only P (bind m k).
Proof.
  intros Hm Hk w. rewrite bind_unfold.
  destruct (Hm w) as (evs & Ht & HP). destruct (m w) as [[a|e] w1]; simpl in *.
  - destruct (Hk a w1) as (evs' & Ht' & HP'). exists (evs ++ evs').
    rewrite Ht', Ht, app_assoc. split; [done | by apply Forall_app].
  - eauto.
Qed.

Lemma keeps_retriever_bind (m : M A) (k : A → M B) :
  keeps_retriever m → (∀ a, keeps_retriever (k a)) → keeps_retriever (bind m k).
Proof.
  intros Hm Hk w. rewrite bind_unfold. specialize (Hm w).
  destruct (m w) as [[a|e] w1]; simpl in *; [| done].
  by rewrite Hk.
Qed.

Lemma never_raises_bind (m : M A) (k : A → M B) :
  never_raises m → (∀ a, never_raises (k a)) → never_raises (bind m k).
Proof.
  intros Hm Hk w. rewrite bind_unfold. destruct (Hm w) as (a & Ha).
  destruct (m w) as [[a'|e] w1]; simpl in *; [apply Hk | discriminate].
Qed.

End MonadFacts.

Section HandlerFacts.

Context {A : Type}.

Lemma emits_only_try P (body : M A) (handler : Exn → M A) :
  emits_only P body → (∀ e, emits_only P (handler e)) →
  emits_only P (try_except body handler).
Proof.
  intros Hm Hk w. unfold try_except.
  destruct (Hm w) as (evs & Ht & HP). destruct (body w) as [[a|e] w1]; simpl in *.
  - eauto.
  - destruct (Hk e w1) as (evs' & Ht' & HP'). exists (evs ++ evs').
    rewrite Ht', Ht, app_assoc. split; [done | by apply Forall_app].
Qed.

Lemma keeps_retriever_try (body : M A) (handler : Exn → M A) :
  keeps_retriever body → (∀ e, keeps_retriever (handler e)) →
  keeps_retriever (try_except body handler).
Proof.
  intros Hm Hk w. unfold try_except. specialize (Hm w).
  destruct (body w) as [[a|e] w1]; simpl in *; [done |].
  by rewrite Hk.
Qed.

(** A [try] whose handlers all return cannot raise. *)
Lemma never_raises_try (body : M A) (handler : Exn → M A) :
  (∀ e, never_raises (handler e)) → never_raises (try_except body handler).
Proof.
  intros Hk w. unfold try_except.
  destruct (body w) as [[a|e] w1]; simpl; [eauto | apply Hk].
Qed.

Lemma emits_only_ret P (a : A) : emits_only P (ret a).
Proof. intros w. exists []. by rewrite app_nil_r. Qed.

Lemma emits_only_lift P (o : Outcome A) : emits_only P (lift o).
Proof. intros w. exists []. by rewrite app_nil_r. Qed.

Lemma keeps_retriever_ret (a : A) : keeps_retriever (ret a).
Proof. done. Qed.

Lemma keeps_retriever_lift (o : Outcome A) : keeps_retriever (lift o).
Proof. done. Qed.

Lemma never_raises_ret (a : A) : never_raises (ret a).
Proof. intros w. by exists a. Qed.

Lemma emits_only_weaken (P Q : Event → Prop) (m : M A) :
  (∀ ev, P ev → Q ev) → emits_only P m → emits_only Q m.
Proof.
  intros HPQ Hm w. destruct (Hm w) as (evs & Ht & HP).
  exists evs. split; [done |]. eapply Forall_impl; eauto.
Qed.

End HandlerFacts.

Lemma emits_only_emit (P : Event → Prop) ev : P ev → emits_only P (emit ev).
Proof. intros HP w. exists [ev]. split; [done | by constructor]. Qed.

Lemma keeps_retriever_emit ev : keeps_retriever (emit ev).
Proof. done. Qed.

Lemma never_raises_emit ev : never_raises (emit ev).
Proof. intros w. by exists tt. Qed.

Lemma emits_only_set_discover_sent P : emits_only P set_discover_sent.
Proof. intros w. exists []. by rewrite app_nil_r. Qed.

Lemma emits_only_set_prompt_sent P : emits_only P set_prompt_sent.
Proof. intros w. exists []. by rewrite app_nil_r. Qed.

Lemma starts_with_emit ev : starts_with ev (emit ev).
Proof. intros w. by exists []. Qed.

Lemma starts_with_bind {A B} P ev (m : M A) (k : A → M B) :
  starts_with ev m → (∀ a, emits_only P (k a)) → starts_with ev (bind m k).
Proof.
  intros Hm Hk w. rewrite bind_unfold. destruct (Hm w) as (evs & Ht).
  destruct (m w) as [[a|e] w1]; simpl in *; [| eauto].
  destruct (Hk a w1) as (evs' & -> & _). rewrite Ht.
  exists (evs ++ evs'). by rewrite <- app_assoc.
Qed.

Lemma starts_with_try {A} P ev (body : M A) (handler : Exn → M A) :
  starts_with ev body → (∀ e, emits_only P (handler e)) →
  starts_with ev (try_except body handler).
Proof.
  intros Hm Hk w. unfold try_except. destruct (Hm w) as (evs & Ht).
  destruct (body w) as [[a|e] w1]; simpl in *; [eauto |].
  destruct (Hk e w1) as (evs' & -> & _). rewrite Ht.
  exists (evs ++ evs'). by rewrite <- app_assoc.
Qed.

Create HintDb chain discriminated.

#[local] Hint Resolve
  emits_only_bind keeps_retriever_bind never_raises_bind
  emits_only_try keeps_retriever_try never_raises_try
  emits_only_ret emits_only_lift keeps_retriever_ret keeps_retriever_lift
  never_raises_ret emits_only_emit keeps_retriever_emit never_raises_emit
  emits_only_set_discover_sent emits_only_set_prompt_sent : chain.

(** Splitting a goal about a computation along its shape. *)
Ltac frame :=
  repeat first
    [ apply emits_only_bind | apply keeps_retriever_bind | apply never_raises_bind
    | apply emits_only_try | apply keeps_retriever_try | apply never_raises_try
    | apply emits_only_ret | apply emits_only_lift
    | apply keeps_retriever_ret | apply keeps_retriever_lift
    | apply never_raises_ret
    | apply keeps_retriever_emit | apply never_raises_emit
    | apply emits_only_set_discover_sent | apply emits_only_set_prompt_sent
    | (apply emits_only_emit; first [exact I | reflexivity])
    | intro
    | match goal with
      | |- context [if ?b then _ else _] => destruct b
      | |- context [match ?x with Some _ => _ | None => _ end] => destruct x
      end ];
  try done.

Section TelemetryFacts.

Context (env : Env).

Lemma post_telemetry req : emits_only is_telemetry (post env req).
Proof. unfold post. frame. Qed.

Lemma post_keeps req : keeps_retriever (post env req).
Proof. unfold post. frame. Qed.

Lemma debug_response_telemetry fmt resp :
  emits_only is_telemetry (debug_response fmt resp).
Proof. unfold debug_response, log. frame. Qed.

Lemma debug_response_keeps fmt resp : keeps_retriever (debug_response fmt resp).
Proof. unfold debug_response, log. frame. Qed.

(** [_send_discover] returns whatever the HTTP calls do. *)
Lemma send_discover_never_raises app api_key classifier_url :
  never_raises (_send_discover env app api_key classifier_url).
Proof. unfold _send_discover, log. frame. Qed.

Lemma send_discover_telemetry app api_key classifier_url :
  emits_only is_telemetry (_send_discover env app api_key classifier_url).
Proof.
  unfold _send_discover, log. frame;
    first [apply post_telemetry | apply debug_response_telemetry].
Qed.

Lemma send_discover_keeps app api_key classifier_url :
  keeps_retriever (_send_discover env app api_key classifier_url).
Proof.
  unfold _send_discover, log. frame;
    first [apply post_keeps | apply debug_response_keeps].
Qed.

(** [_send_prompt] returns whatever the HTTP calls do. *)
Lemma send_prompt_never_raises self qa : never_raises (_send_prompt env self qa).
Proof. unfold _send_prompt, log. frame. Qed.

Lemma send_prompt_telemetry self qa :
  emits_only is_telemetry (_send_prompt env self qa).
Proof.
  unfold _send_prompt, log. frame;
    first [apply post_telemetry | apply debug_response_telemetry].
Qed.

Lemma send_prompt_keeps self qa : keeps_retriever (_send_prompt env self qa).
Proof.
  unfold _send_prompt, log. frame;
    first [apply post_keeps | apply debug_response_keeps].
Qed.

End TelemetryFacts.

(** Unfolding a telemetry routine down to case distinctions on what the
    HTTP layer answered. *)
Ltac run_telemetry :=
  unfold _send_prompt, _send_discover, try_except, post, debug_response, log, bind,
    emit, lift, ret, set_prompt_sent, set_discover_sent, get_prompt_sent,
    get_discover_sent;
  simpl.

Ltac crack :=
  repeat match goal with
         | |- context [match requests_post ?e ?r with _ => _ end] =>
             destruct (requests_post e r) as [?resp|?exn]; simpl
         | |- context [match resp_json ?r with _ => _ end] =>
             destruct (resp_json r); simpl
         | |- context [if status_accepted ?r then _ else _] =>
             destruct (status_accepted r); simpl
         | |- context [if is_request_exception ?e then _ else _] =>
             destruct (is_request_exception e); simpl
         | |- context [match api_key_given ?k with _ => _ end] =>
             destruct (api_key_given k); simpl
         end.

Section ChainFacts.

Context (env : Env).

Lemma validate_unsupported r :
  (∀ cls, cls ∈ SUPPORTED_VECTORSTORES env → isinstance (vectorstore r) cls = false) →
  ∃ msg, validate_vectorstore env r = Raise (mkExn ValueError msg).
Proof.
  intros Hno. unfold validate_vectorstore.
  assert (existsb (isinstance (vectorstore r)) (SUPPORTED_VECTORSTORES env) = false)
    as ->; [| simpl; eauto].
  apply not_true_iff_false. rewrite existsb_exists.
  intros (cls & Hin & Hcls). apply list_elem_of_In in Hin.
  rewrite (Hno cls Hin) in Hcls. discriminate.
Qed.

Lemma validate_supported r cls :
  cls ∈ SUPPORTED_VECTORSTORES env → isinstance (vectorstore r) cls = true →
  validate_vectorstore env r = Ret r.
Proof.
  intros Hin Hcls. unfold validate_vectorstore.
  assert (existsb (isinstance (vectorstore r)) (SUPPORTED_VECTORSTORES env) = true)
    as ->; [| done].
  apply existsb_exists. exists cls. split; [by apply list_elem_of_In | done].
Qed.

(** [from_chain_type], step by step: load the combine-documents chain,
    build the app details, send them, build the object. *)
Lemma from_chain_type_steps llm name descr own chain_type key url kwargs w :
  from_chain_type env llm name descr own chain_type key url kwargs w
  = match load_qa_chain env llm chain_type with
    | Raise e => (Raise e, w)
    | Ret c =>
        match _get_app_details env name own descr llm (retriever_kwarg kwargs w) with
        | Raise e => (Raise e, w)
        | Ret app =>
            (do! _ := _send_discover env app key url in
             construct env
               (mkChain c (kw_input_key kwargs) (kw_output_key kwargs)
                  (kw_return_source_documents kwargs) (kw_auth_context_key kwargs)
                  (kw_semantic_context_key kwargs) name own descr key url)) w
        end
    end.
Proof.
  unfold from_chain_type. rewrite bind_unfold. unfold lift.
  destruct (load_qa_chain env llm chain_type) as [c|e]; [| done].
  rewrite bind_unfold.
  by destruct (_get_app_details env name own descr llm (retriever_kwarg kwargs w)).
Qed.

(** C1. When the store of the retriever is an instance of none of the
    supported classes, building the chain fails with the validator's
    [ValueError] and the world, the retriever in it included, is untouched.
    Through [from_chain_type] no chain is returned either: the call raises,
    and once the combine-documents chain is loaded and the app details are
    built the error is that [ValueError]; the retriever is as it was, and
    nothing but telemetry happened, so [set_enforcement_filters] was never
    called. *)
Theorem unsupported_vectorstore_rejected w fields llm name descr own chain_type key url
    kwargs :
  (∀ cls, cls ∈ SUPPORTED_VECTORSTORES env →
          isinstance (vectorstore (w_retriever w)) cls = false) →
  (∃ msg, construct env fields w = (Raise (mkExn ValueError msg), w))
  ∧ (∃ e w',
       from_chain_type env llm name descr own chain_type key url kwargs w = (Raise e, w')
       ∧ (∀ c app,
            load_qa_chain env llm chain_type = Ret c →
            _get_app_details env name own descr llm (retriever_kwarg kwargs w) = Ret app →
            exn_class e = ValueError)
       ∧ w_retriever w' = w_retriever w
       ∧ ∃ evs, w_trace w' = w_trace w ++ evs ∧ Forall is_telemetry evs).
Proof.
  intros Hno. split.
  - destruct (validate_unsupported _ Hno) as (msg & Hmsg). exists msg.
    unfold construct. rewrite bind_unfold. by rewrite Hmsg.
  - rewrite from_chain_type_steps.
    destruct (load_qa_chain env llm chain_type) as [c|e0].
    2: { exists e0, w. repeat split; [discriminate |].
         exists []. by rewrite app_nil_r. }
    destruct (_get_app_details env name own descr llm (retriever_kwarg kwargs w))
      as [app|e0].
    2: { exists e0, w. repeat split; [discriminate |].
         exists []. by rewrite app_nil_r. }
    rewrite bind_unfold.
    destruct (send_discover_never_raises env app key url w) as ([] & Hret).
    pose proof (send_discover_keeps env app key url w) as Hkeep.
    destruct (send_discover_telemetry env app key url w) as (evs & Htr & Htel).
    destruct (_send_discover env app key url w) as [res w1]; simpl in *.
    subst res.
    assert (∀ cls, cls ∈ SUPPORTED_VECTORSTORES env →
                   isinstance (vectorstore (w_retriever w1)) cls = false) as Hno1
        by (by rewrite Hkeep).
    destruct (validate_unsupported _ Hno1) as (msg & Hmsg).
    exists (mkExn ValueError msg), w1.
    unfold construct. rewrite bind_unfold, Hmsg. eauto 10.
Qed.

(** What [_get_docs] and [_aget_docs] do, step by step. *)
Lemma get_docs_steps is_async question auth sem w :
  bind (enforce env auth sem) (fun _ => search env is_async question) w
  = let res := set_enforcement_filters env auth sem (w_retriever w) in
    let w1 := mkWorld res.2 (w_discover_sent w) (w_prompt_sent w)
                (w_trace w ++ [EvSetFilters auth sem]) in
    match res.1 with
    | Ret _ =>
        (if is_async then aget_relevant_documents env res.2 question
         else get_relevant_documents env res.2 question,
         mkWorld res.2 (w_discover_sent w) (w_prompt_sent w)
           (w_trace w ++ [EvSetFilters auth sem] ++ [EvSearch is_async res.2 question]))
    | Raise e => (Raise e, w1)
    end.
Proof.
  rewrite bind_unfold. unfold enforce. rewrite bind_unfold. simpl.
  destruct (set_enforcement_filters env auth sem (w_retriever w)) as [[u|e] r]; simpl.
  - unfold search. rewrite bind_unfold. simpl. by rewrite <- app_assoc.
  - reflexivity.
Qed.

(** C2. In every retrieval, synchronous or not, the first thing that
    happens is the call of [set_enforcement_filters] on the retriever with
    the contexts of the request at hand; whatever happens after it, in
    particular every similarity search, happens only if that call returned,
    and is a search on the retriever exactly as that call left it.  When the
    call returns the search does run. *)
Theorem filters_set_before_search self question auth sem w :
  let res := set_enforcement_filters env auth sem (w_retriever w) in
  (∃ evs,
     w_trace (_get_docs env self question auth sem w).2
     = w_trace w ++ EvSetFilters auth sem :: evs
     ∧ (∀ ev, ev ∈ evs → res.1 = Ret tt ∧ ev = EvSearch false res.2 question)
     ∧ (res.1 = Ret tt → EvSearch false res.2 question ∈ evs))
  ∧ (∃ evs,
       w_trace (_aget_docs env self question auth sem w).2
       = w_trace w ++ EvSetFilters auth sem :: evs
       ∧ (∀ ev, ev ∈ evs → res.1 = Ret tt ∧ ev = EvSearch true res.2 question)
       ∧ (res.1 = Ret tt → EvSearch true res.2 question ∈ evs)).
Proof.
  intros res. unfold _get_docs, _aget_docs. rewrite !get_docs_steps.
  fold res. cbv zeta.
  destruct (res.1) as [[]|e] eqn:Hres; simpl.
  - split; (eexists; split; [reflexivity |]; split;
            [intros ev ->%list_elem_of_singleton; done
            | intros _; apply list_elem_of_here]).
  - split; (exists []; split; [reflexivity |]; split;
            [intros ev Hev; by apply not_elem_of_nil in Hev | discriminate]).
Qed.

Lemma get_docs_raise self question auth sem e w :
  (set_enforcement_filters env auth sem (w_retriever w)).1 = Raise e →
  ∃ w', _get_docs env self question auth sem w = (Raise e, w')
        ∧ w_trace w' = w_trace w ++ [EvSetFilters auth sem].
Proof.
  intros He. unfold _get_docs. rewrite get_docs_steps. cbv zeta. rewrite He. eauto.
Qed.

Lemma aget_docs_raise self question auth sem e w :
  (set_enforcement_filters env auth sem (w_retriever w)).1 = Raise e →
  ∃ w', _aget_docs env self question auth sem w = (Raise e, w')
        ∧ w_trace w' = w_trace w ++ [EvSetFilters auth sem].
Proof.
  intros He. unfold _aget_docs. rewrite get_docs_steps. cbv zeta. rewrite He. eauto.
Qed.

(** [_call] and [_acall] once the question has been read. *)
Lemma call_with_question self inputs question w :
  inputs !! input_key self = Some question →
  _call env self inputs w
  = (let auth_context := default (VDict []) (inputs !! auth_context_key self) in
     let semantic_context := default (VDict []) (inputs !! semantic_context_key self) in
     do! docs := _get_docs env self question auth_context semantic_context in
     do! answer := combine false self docs question in
     do! qa_payload := (fun w =>
                          (qa_record env self (w_retriever w) (now_isoformat env) question
                             answer docs auth_context, w)) in
     do! _ := _send_prompt env self qa_payload in
     ret (result_dict self answer docs)) w.
Proof.
  intros Hq. unfold _call. rewrite bind_unfold. unfold lift, getitem.
  by rewrite Hq.
Qed.

Lemma acall_with_question self inputs question w :
  inputs !! input_key self = Some question →
  _acall env self inputs w
  = (let auth_context := default VNone (inputs !! auth_context_key self) in
     let semantic_context := default VNone (inputs !! semantic_context_key self) in
     do! docs := _aget_docs env self question auth_context semantic_context in
     do! answer := combine true self docs question in
     ret (result_dict self answer docs)) w.
Proof.
  intros Hq. unfold _acall. rewrite bind_unfold. unfold lift, getitem.
  by rewrite Hq.
Qed.

Lemma call_without_question self inputs w :
  inputs !! input_key self = None →
  _call env self inputs w = (Raise (mkExn KeyError (input_key self)), w)
  ∧ _acall env self inputs w = (Raise (mkExn KeyError (input_key self)), w).
Proof.
  intros Hq. unfold _call, _acall. rewrite !bind_unfold. unfold lift, getitem.
  by rewrite Hq.
Qed.

(** C4. Fail closed: when [set_enforcement_filters] raises [e] on the
    contexts of a request, [_get_docs] and [_aget_docs] raise the same [e],
    and so do [_call] and [_acall] on inputs that carry these contexts; in
    each case the only thing that happened is the call of the helper: no
    search ran, no documents were combined, nothing was posted, and no
    result is returned. *)
Theorem filter_error_aborts_retrieval self inputs question auth sem e w :
  (set_enforcement_filters env auth sem (w_retriever w)).1 = Raise e →
  ((_get_docs env self question auth sem w).1 = Raise e
   ∧ w_trace (_get_docs env self question auth sem w).2
     = w_trace w ++ [EvSetFilters auth sem])
  ∧ ((_aget_docs env self question auth sem w).1 = Raise e
     ∧ w_trace (_aget_docs env self question auth sem w).2
       = w_trace w ++ [EvSetFilters auth sem])
  ∧ (inputs !! input_key self = Some question →
     default (VDict []) (inputs !! auth_context_key self) = auth →
     default (VDict []) (inputs !! semantic_context_key self) = sem →
     (_call env self inputs w).1 = Raise e
     ∧ w_trace (_call env self inputs w).2 = w_trace w ++ [EvSetFilters auth sem])
  ∧ (inputs !! input_key self = Some question →
     default VNone (inputs !! auth_context_key self) = auth →
     default VNone (inputs !! semantic_context_key self) = sem →
     (_acall env self inputs w).1 = Raise e
     ∧ w_trace (_acall env self inputs w).2 = w_trace w ++ [EvSetFilters auth sem]).
Proof.
  intros He.
  destruct (get_docs_raise self question auth sem e w He) as (w1 & Hg & Ht).
  destruct (aget_docs_raise self question auth sem e w He) as (w2 & Hag & Hat).
  split; [by rewrite Hg |]. split; [by rewrite Hag |]. split.
  - intros Hq Hauth Hsem. rewrite (call_with_question _ _ _ _ Hq).
    cbv zeta. rewrite Hauth, Hsem. by rewrite (bind_raise _ _ _ _ _ Hg).
  - intros Hq Hauth Hsem. rewrite (acall_with_question _ _ _ _ Hq).
    cbv zeta. rewrite Hauth, Hsem. by rewrite (bind_raise _ _ _ _ _ Hag).
Qed.


(** The first thing [_send_prompt] does is post the record to the
    classifier. *)
Lemma send_prompt_posts self qa :
  starts_with
    (EvPost (mkRequest (classifier_url self +:+ PROMPT_URL env) base_headers (PQa qa)))
    (_send_prompt env self qa).
Proof.
  unfold _send_prompt, log.
  eapply (starts_with_bind is_telemetry).
  - eapply (starts_with_try is_telemetry).
    + eapply (starts_with_bind is_telemetry).
      * unfold post. eapply (starts_with_bind is_telemetry);
          [apply starts_with_emit | frame].
      * frame; apply debug_response_telemetry.
    + frame.
  - frame; first [apply post_telemetry | apply debug_response_telemetry].
Qed.


Lemma send_prompt_carries self qa : emits_only (carries qa) (_send_prompt env self qa).
Proof. unfold _send_prompt, log, post, debug_response, log. frame. Qed.


(** C8. The sent flags belong to the class, not to an instance.  Setting
    one makes it read as set from every instance [other]; so after
    [_send_prompt] on the instance [self] got an accepted answer from the
    classifier (status OK or BAD_GATEWAY, readable body), [_prompt_sent]
    reads as set from every instance, and likewise [_discover_sent] after
    [_send_discover]. *)
Theorem sent_flags_are_class_level self other w :
  get_discover_sent other (set_discover_sent w).2 = true
  ∧ get_prompt_sent other (set_prompt_sent w).2 = true
  ∧ (∀ qa resp body,
       requests_post env
         (mkRequest (classifier_url self +:+ PROMPT_URL env) base_headers (PQa qa))
       = Ret resp →
       resp_json resp = Ret body →
       status_accepted resp = true →
       get_prompt_sent other (_send_prompt env self qa w).2 = true)
  ∧ (∀ app key url resp body,
       requests_post env
         (mkRequest (url +:+ APP_DISCOVER_URL env) base_headers (PApp app))
       = Ret resp →
       resp_json resp = Ret body →
       status_accepted resp = true →
       get_discover_sent other (_send_discover env app key url w).2 = true).
Proof.
  split; [done |]. split; [done |]. split.
  - intros qa resp body Hpost Hbody Hstatus. run_telemetry.
    rewrite Hpost. simpl. rewrite Hbody. simpl. rewrite Hstatus. simpl.
    crack; reflexivity.
  - intros app key url resp body Hpost Hbody Hstatus. run_telemetry.
    rewrite Hpost. simpl. rewrite Hbody. simpl. rewrite Hstatus. simpl.
    crack; reflexivity.
Qed.

(** Without an accepted answer the flag keeps its value. *)
Lemma prompt_flag_kept_on_failure self qa w e :
  requests_post env
    (mkRequest (classifier_url self +:+ PROMPT_URL env) base_headers (PQa qa))
  = Raise e →
  w_prompt_sent (_send_prompt env self qa w).2 = w_prompt_sent w.
Proof.
  intros Hpost. run_telemetry. rewrite Hpost. simpl. crack; reflexivity.
Qed.

Lemma enforce_emits (P : Event → Prop) auth sem :
  P (EvSetFilters auth sem) → emits_only P (enforce env auth sem).
Proof.
  intros HP w. unfold enforce. rewrite bind_unfold. simpl.
  destruct (set_enforcement_filters env auth sem (w_retriever w)) as [res r]. simpl.
  exists [EvSetFilters auth sem]. split; [done | by constructor].
Qed.

Lemma search_emits (P : Event → Prop) is_async question :
  (∀ r, P (EvSearch is_async r question)) → emits_only P (search env is_async question).
Proof.
  intros HP w. unfold search. rewrite bind_unfold. simpl.
  exists [EvSearch is_async (w_retriever w) question]. split; [done | by constructor].
Qed.

Lemma get_docs_retrieval self question auth sem :
  emits_only is_retrieval (_get_docs env self question auth sem).
Proof.
  unfold _get_docs. apply emits_only_bind; [by apply enforce_emits |].
  intros _. by apply search_emits.
Qed.

Lemma aget_docs_retrieval self question auth sem :
  emits_only is_retrieval (_aget_docs env self question auth sem).
Proof.
  unfold _aget_docs. apply emits_only_bind; [by apply enforce_emits |].
  intros _. by apply search_emits.
Qed.

Lemma combine_retrieval is_async self docs question :
  emits_only is_retrieval (combine is_async self docs question).
Proof. unfold combine. frame. Qed.

Lemma acall_retrieval self inputs : emits_only is_retrieval (_acall env self inputs).
Proof.
  unfold _acall. apply emits_only_bind; [apply emits_only_lift |]. intros question.
  cbv zeta. apply emits_only_bind; [apply aget_docs_retrieval |]. intros docs.
  apply emits_only_bind; [apply combine_retrieval |]. intros answer.
  apply emits_only_ret.
Qed.

Lemma acall_keeps_flags self inputs w :
  w_discover_sent (_acall env self inputs w).2 = w_discover_sent w
  ∧ w_prompt_sent (_acall env self inputs w).2 = w_prompt_sent w.
Proof.
  unfold _acall, _aget_docs, enforce, search, combine, bind, emit, lift, ret, getitem.
  simpl. destruct (inputs !! input_key self) as [question|]; simpl; [| done].
  destruct (set_enforcement_filters env _ _ (w_retriever w)) as [[[]|e] r]; simpl;
    [| done].
  destruct (aget_relevant_documents env r question) as [docs|e]; simpl; [| done].
  by destruct (arun (combine_documents_chain self) docs question).
Qed.

Lemma result_dict_dom self answer docs :
  dom (result_dict self answer docs) = list_to_set (output_keys self).
Proof.
  unfold result_dict, output_keys. destruct (return_source_documents self); simpl.
  - rewrite !dom_insert_L, dom_empty_L. apply leibniz_equiv. intros x.
    rewrite !elem_of_union, !elem_of_singleton. tauto.
  - by rewrite dom_insert_L, dom_empty_L.
Qed.

Lemma call_ret_posts self inputs w out :
  (_call env self inputs w).1 = Ret out →
  ∃ answer docs qa evs1 evs2,
    out = result_dict self answer docs
    ∧ w_trace (_call env self inputs w).2
      = w_trace w ++ evs1
        ++ EvPost (mkRequest (classifier_url self +:+ PROMPT_URL env) base_headers
                     (PQa qa)) :: evs2.
Proof.
  destruct (_call env self inputs w) as [res w'] eqn:Hc. simpl. intros ->.
  destruct (inputs !! input_key self) as [question|] eqn:Hq.
  2: { destruct (call_without_question self inputs w Hq) as [Hk _]. congruence. }
  rewrite (call_with_question _ _ _ _ Hq) in Hc. cbv zeta in Hc.
  apply bind_ret_inv in Hc as (docs & w1 & Hdocs & Hc).
  apply bind_ret_inv in Hc as (answer & w2 & Hans & Hc).
  apply bind_ret_inv in Hc as (qa & w3 & Hqa & Hc).
  apply bind_ret_inv in Hc as (u & w4 & Hsend & Hc).
  injection Hc as <- <-. injection Hqa as _ <-.
  destruct (get_docs_retrieval self question
              (default (VDict []) (inputs !! auth_context_key self))
              (default (VDict []) (inputs !! semantic_context_key self)) w)
    as (e1 & Ht1 & _).
  rewrite Hdocs in Ht1. simpl in Ht1.
  destruct (combine_retrieval false self docs question w1) as (e2 & Ht2 & _).
  rewrite Hans in Ht2. simpl in Ht2.
  destruct (send_prompt_posts self qa w2) as (e3 & Ht3).
  rewrite Hsend in Ht3. simpl in Ht3.
  exists answer, docs, qa, (e1 ++ e2), e3. split; [done |].
  simpl. rewrite Ht3, Ht2, Ht1. by rewrite <- !app_assoc.
Qed.

(** C10. The asynchronous path sends no prompt record: whatever the
    inputs, [_acall] only sets the filters, searches and combines; it posts
    nothing, logs nothing and leaves both sent flags alone.  [_call], when
    it returns, has posted the record of the exchange to the classifier.
    The dictionaries the two return have the same keys, those listed by
    [output_keys]. *)
Theorem acall_sends_no_prompt self inputs w :
  (∃ evs, w_trace (_acall env self inputs w).2 = w_trace w ++ evs
          ∧ Forall is_retrieval evs)
  ∧ w_discover_sent (_acall env self inputs w).2 = w_discover_sent w
  ∧ w_prompt_sent (_acall env self inputs w).2 = w_prompt_sent w
  ∧ (∀ out, (_call env self inputs w).1 = Ret out →
       dom out = list_to_set (output_keys self)
       ∧ ∃ qa evs1 evs2,
           w_trace (_call env self inputs w).2
           = w_trace w ++ evs1
             ++ EvPost (mkRequest (classifier_url self +:+ PROMPT_URL env) base_headers
                          (PQa qa)) :: evs2)
  ∧ (∀ out, (_acall env self inputs w).1 = Ret out →
       dom out = list_to_set (output_keys self)).
Proof.
  split; [apply acall_retrieval |].
  split; [apply acall_keeps_flags |].
  split; [apply acall_keeps_flags |].
  split.
  - intros out Hout.
    destruct (call_ret_posts _ _ _ _ Hout) as (answer & docs & qa & e1 & e2 & -> & Ht).
    split; [apply result_dict_dom | eauto].
  - intros out. destruct (_acall env self inputs w) as [res w'] eqn:Hc. simpl.
    intros ->.
    destruct (inputs !! input_key self) as [question|] eqn:Hq.
    2: { destruct (call_without_question self inputs w Hq) as [_ Hk]. congruence. }
    rewrite (acall_with_question _ _ _ _ Hq) in Hc. cbv zeta in Hc.
    apply bind_ret_inv in Hc as (docs & w1 & _ & Hc).
    apply bind_ret_inv in Hc as (answer & w2 & _ & Hc).
    injection Hc as <- _. apply result_dict_dom.
Qed.

End ChainFacts.

(** ** Telemetry cannot fail the chain *)

Lemma get_docs_with_post post' env self :
  _get_docs (with_post post' env) self = _get_docs env self.
Proof. reflexivity. Qed.

(** The result of [_call] is the same under any two HTTP behaviours. *)
Lemma call_result_ignores_http post' env self inputs w :
  (_call (with_post post' env) self inputs w).1 = (_call env self inputs w).1.
Proof.
  destruct (inputs !! input_key self) as [question|] eqn:Hq.
  2: { destruct (call_without_question env self inputs w Hq) as [-> _].
       by destruct (call_without_question (with_post post' env) self inputs w Hq)
         as [-> _]. }
  rewrite (call_with_question env _ _ _ _ Hq).
  rewrite (call_with_question (with_post post' env) _ _ _ _ Hq).
  cbv zeta. rewrite get_docs_with_post.
  change (now_isoformat (with_post post' env)) with (now_isoformat env).
  change (qa_record (with_post post' env)) with (qa_record env).
  rewrite !bind_unfold.
  destruct (_get_docs env self question _ _ w) as [[docs|e] w1]; [| done].
  rewrite !bind_unfold.
  destruct (combine false self docs question w1) as [[answer|e] w2]; [| done].
  rewrite !bind_unfold.
  destruct (qa_record env self (w_retriever w2) (now_isoformat env) question answer docs _)
    as [qa|e]; [| done].
  rewrite !bind_unfold.
  destruct (send_prompt_never_raises env self qa w2) as ([] & H1).
  destruct (send_prompt_never_raises (with_post post' env) self qa w2) as ([] & H2).
  destruct (_send_prompt env self qa w2) as [r1 w3].
  destruct (_send_prompt (with_post post' env) self qa w2) as [r2 w4].
  simpl in *. by subst.
Qed.

(** C9. Telemetry never raises.  Whatever the HTTP layer does, fail,
    answer with any status, or answer with a body that cannot be read,
    [_send_discover] and [_send_prompt] return; whenever the classifier did
    not accept the payload a warning is logged; and the result of [_call] is
    the same under any other HTTP behaviour [post']. *)
Theorem telemetry_never_raises env self :
  (∀ app key url w, ∃ w', _send_discover env app key url w = (Ret tt, w'))
  ∧ (∀ qa w, ∃ w', _send_prompt env self qa w = (Ret tt, w'))
  ∧ (∀ app key url w,
       accepted (requests_post env
                   (mkRequest (url +:+ APP_DISCOVER_URL env) base_headers (PApp app)))
       = false →
       ∃ msg, EvLog Warning msg ∈ w_trace (_send_discover env app key url w).2)
  ∧ (∀ qa w,
       accepted (requests_post env
                   (mkRequest (classifier_url self +:+ PROMPT_URL env) base_headers
                      (PQa qa)))
       = false →
       ∃ msg, EvLog Warning msg ∈ w_trace (_send_prompt env self qa w).2)
  ∧ (∀ post' inputs w,
       (_call (with_post post' env) self inputs w).1 = (_call env self inputs w).1).
Proof.
  split.
  { intros app key url w.
    destruct (send_discover_never_raises env app key url w) as ([] & H).
    destruct (_send_discover env app key url w) as [r w']. simpl in H. subst. eauto. }
  split.
  { intros qa w. destruct (send_prompt_never_raises env self qa w) as ([] & H).
    destruct (_send_prompt env self qa w) as [r w']. simpl in H. subst. eauto. }
  split.
  { intros app key url w. unfold accepted. run_telemetry.
    destruct (requests_post env _) as [resp|e]; simpl.
    - destruct (resp_json resp); simpl.
      + intros ->. simpl. crack; eexists; rewrite !elem_of_app, !list_elem_of_singleton;
          eauto 10.
      + intros _. crack; eexists; rewrite !elem_of_app, !list_elem_of_singleton;
          eauto 10.
    - intros _. crack; eexists; rewrite !elem_of_app, !list_elem_of_singleton;
        eauto 10. }
  split.
  { intros qa w. unfold accepted. run_telemetry.
    destruct (requests_post env _) as [resp|e]; simpl.
    - destruct (resp_json resp); simpl.
      + intros ->. simpl. crack; eexists; rewrite !elem_of_app, !list_elem_of_singleton;
          eauto 10.
      + intros _. crack; eexists; rewrite !elem_of_app, !list_elem_of_singleton;
          eauto 10.
    - intros _. crack; eexists; rewrite !elem_of_app, !list_elem_of_singleton;
        eauto 10. }
  intros post' inputs w. apply call_result_ignores_http.
Qed.

(** ** The theorems at work on the sample deployment *)

(** C1, run: a store of class Z, which is neither X nor Y. *)
Lemma unsupported_vectorstore_rejected_witness :
  (∃ msg, construct Sample.env Sample.chain (Sample.world "Z")
          = (Raise (mkExn ValueError msg), Sample.world "Z"))
  ∧ (∃ e w',
       from_chain_type Sample.env (mkLLM "ChatModel" (Some (Some "m-1")) None) "app"
         "demo" "owner" "stuff" None "http://localhost:8000" default_kwargs
         (Sample.world "Z")
       = (Raise e, w')
       ∧ (∀ c app,
            load_qa_chain Sample.env (mkLLM "ChatModel" (Some (Some "m-1")) None)
              "stuff" = Ret c →
            _get_app_details Sample.env "app" "owner" "demo"
              (mkLLM "ChatModel" (Some (Some "m-1")) None)
              (retriever_kwarg default_kwargs (Sample.world "Z")) = Ret app →
            exn_class e = ValueError)
       ∧ w_retriever w' = w_retriever (Sample.world "Z")
       ∧ ∃ evs, w_trace w' = w_trace (Sample.world "Z") ++ evs ∧ Forall is_telemetry evs).
Proof.
  apply (unsupported_vectorstore_rejected Sample.env (Sample.world "Z")).
  intros cls Hin. vm_compute in Hin.
  apply elem_of_cons in Hin as [-> | Hin]; [reflexivity |].
  apply elem_of_cons in Hin as [-> | Hin]; [reflexivity |].
  by apply not_elem_of_nil in Hin.
Defined.

(** A class that only shares its name with a supported class is not that
    class: its instances are turned down, while an instance of a subclass of
    a supported class is taken. *)
Example same_name_is_not_same_class :
  (∃ msg, validate_vectorstore Sample.env
            (mkRetriever (mkVectorStore (mkClass 7 "X") [Sample.class "object"] None None)
               None)
          = Raise (mkExn ValueError msg))
  ∧ validate_vectorstore Sample.env
      (mkRetriever (mkVectorStore (mkClass 7 "MyX") [Sample.class "X"] None None) None)
    = Ret (mkRetriever (mkVectorStore (mkClass 7 "MyX") [Sample.class "X"] None None)
             None).
Proof. split; [eexists |]; vm_compute; reflexivity. Qed.

(** C4, run: the backend Y has no negation, the request denies a topic, so
    compiling fails and [_call] stops there. *)
Lemma filter_error_aborts_retrieval_witness :
  (_call Sample.env Sample.chain Sample.inputs (Sample.world "Y")).1
  = Raise (mkExn UnsupportedFilterOperatorError "operator")
  ∧ w_trace (_call Sample.env Sample.chain Sample.inputs (Sample.world "Y")).2
    = w_trace (Sample.world "Y")
      ++ [EvSetFilters (VAuthContext Sample.alice) (VSemanticContext Sample.no_finance)].
Proof.
  refine (proj1 (proj2 (proj2
            (filter_error_aborts_retrieval Sample.env Sample.chain Sample.inputs
               (VStr "q") (VAuthContext Sample.alice)
               (VSemanticContext Sample.no_finance)
               (mkExn UnsupportedFilterOperatorError "operator")
               (Sample.world "Y") _))) _ _ _);
    vm_compute; reflexivity.
Defined.


(** The same request with a list where the source of the document should
    be: the constructor of [Qa] refuses the record and nothing is posted. *)
Example refused_record_is_not_posted :
  let listed := mkDocument "memo" (<["source" := MList ["a"; "b"]]> ∅) in
  let env := mkEnv (SUPPORTED_VECTORSTORES Sample.env)
               (set_enforcement_filters Sample.env) (APP_DISCOVER_URL Sample.env)
               (PEBBLO_CLOUD_URL Sample.env) (PLUGIN_VERSION Sample.env)
               (PROMPT_URL Sample.env) (get_runtime Sample.env)
               (requests_post Sample.env) (fun _ _ => Ret [IDoc listed])
               (fun _ _ => Ret [IDoc listed]) (load_qa_chain Sample.env)
               (now_isoformat Sample.env) (App_validate Sample.env)
               (Qa_validate Sample.env) in
  (_call env Sample.chain Sample.anonymous_inputs (Sample.world "X")).1
  = Raise (mkExn ValidationError "context.retrieved_from")
  ∧ posts_of (w_trace (_call env Sample.chain Sample.anonymous_inputs
                         (Sample.world "X")).2) = [].
Proof. vm_compute. done. Qed.

(** With the HTTP layer down the answer is the same, the prompt flag stays
    unset and a warning is logged. *)
Example offline_call :
  (_call Sample.offline Sample.chain Sample.inputs (Sample.world "X")).1
  = (_call Sample.env Sample.chain Sample.inputs (Sample.world "X")).1
  ∧ w_prompt_sent (_call Sample.offline Sample.chain Sample.inputs (Sample.world "X")).2
    = false
  ∧ w_prompt_sent (_call Sample.env Sample.chain Sample.inputs (Sample.world "X")).2
    = true
  ∧ EvLog Warning "Unable to reach pebblo server."
    ∈ w_trace (_call Sample.offline Sample.chain Sample.inputs (Sample.world "X")).2.
Proof.
  split; [vm_compute; reflexivity |]. split; [vm_compute; reflexivity |].
  split; [vm_compute; reflexivity |].
  vm_compute. do 4 apply list_elem_of_further. apply list_elem_of_here.
Qed.

(** A second chain object sees the flag that the first one set. *)
Example flag_seen_by_other_instance :
  let other := mkChain Sample.qa_chain "q" "r" false "a" "s" "other app" "o" "d"
                 (Some "key") "http://elsewhere" in
  let qa := mkQa "app" [] (VStr "q") "forty-two" "t" "alice" ["team-a"] in
  get_prompt_sent other (Sample.world "X") = false
  ∧ get_prompt_sent other (_send_prompt Sample.env Sample.chain qa (Sample.world "X")).2
    = true.
Proof. vm_compute. done. Qed.

(** The asynchronous run of the same request: same result, no post, flag
    unset. *)
Example async_call :
  (_acall Sample.env Sample.chain Sample.inputs (Sample.world "X")).1
  = (_call Sample.env Sample.chain Sample.inputs (Sample.world "X")).1
  ∧ w_prompt_sent (_acall Sample.env Sample.chain Sample.inputs (Sample.world "X")).2
    = false
  ∧ length (w_trace (_acall Sample.env Sample.chain Sample.inputs (Sample.world "X")).2)
    = 3
  ∧ length (w_trace (_call Sample.env Sample.chain Sample.inputs (Sample.world "X")).2)
    = 6.
Proof. vm_compute. done. Qed.

(** * Further properties of the chain *)

Lemma posts_of_app evs evs' : posts_of (evs ++ evs') = posts_of evs ++ posts_of evs'.
Proof. unfold posts_of. by rewrite flat_map_app. Qed.

Lemma posts_of_retrieval evs : Forall is_retrieval evs → posts_of evs = [].
Proof.
  induction 1 as [|ev evs Hev _ IH]; [done |].
  destruct ev; simpl in *; done.
Qed.

Lemma keeps_retriever_bind_from {A B} (m : M A) (k : A → M B) w :
  (∀ a, keeps_retriever (k a)) →
  w_retriever (bind m k w).2 = w_retriever (m w).2.
Proof.
  intros Hk. rewrite bind_unfold. destruct (m w) as [[a|e] w1]; simpl; [| done].
  apply Hk.
Qed.

Section FurtherFacts.

Context (env : Env).

(** X2. Without the question under [input_key], [_call] and [_acall]
    raise [KeyError] for that key at once: the world is exactly as before,
    so no filter was set, nothing was searched and nothing was posted. *)
Theorem missing_question_is_key_error self inputs w :
  inputs !! input_key self = None →
  _call env self inputs w = (Raise (mkExn KeyError (input_key self)), w)
  ∧ _acall env self inputs w = (Raise (mkExn KeyError (input_key self)), w).
Proof.
  intros Hq. unfold _call, _acall, getitem. rewrite !bind_unfold. unfold lift.
  by rewrite Hq.
Qed.

Lemma send_prompt_flags self qa w :
  w_prompt_sent (_send_prompt env self qa w).2
  = w_prompt_sent w
    || accepted (requests_post env
                   (mkRequest (classifier_url self +:+ PROMPT_URL env) base_headers
                      (PQa qa)))
  ∧ w_discover_sent (_send_prompt env self qa w).2 = w_discover_sent w.
Proof.
  unfold accepted. run_telemetry.
  crack; rewrite ?orb_true_r, ?orb_false_r; done.
Qed.

Lemma send_discover_flags app key url w :
  w_discover_sent (_send_discover env app key url w).2
  = w_discover_sent w
    || accepted (requests_post env
                   (mkRequest (url +:+ APP_DISCOVER_URL env) base_headers (PApp app)))
  ∧ w_prompt_sent (_send_discover env app key url w).2 = w_prompt_sent w.
Proof.
  unfold accepted. run_telemetry.
  crack; rewrite ?orb_true_r, ?orb_false_r; done.
Qed.

(** X3. What the sent flags are after a telemetry routine.  After
    [_send_prompt] the flag [_prompt_sent] is set exactly if it was set
    before or the classifier accepted the record (the post returned, the
    body was readable, the status was OK or BAD_GATEWAY); the answer of the
    cloud server plays no part, and [_discover_sent] keeps its value.  The
    same holds for [_send_discover] with the two flags exchanged. *)
Theorem sent_flag_follows_classifier_only self qa app key url w :
  (w_prompt_sent (_send_prompt env self qa w).2
   = w_prompt_sent w
     || accepted (requests_post env
                    (mkRequest (classifier_url self +:+ PROMPT_URL env) base_headers
                       (PQa qa)))
   ∧ w_discover_sent (_send_prompt env self qa w).2 = w_discover_sent w)
  ∧ (w_discover_sent (_send_discover env app key url w).2
     = w_discover_sent w
       || accepted (requests_post env
                      (mkRequest (url +:+ APP_DISCOVER_URL env) base_headers (PApp app)))
     ∧ w_prompt_sent (_send_discover env app key url w).2 = w_prompt_sent w).
Proof. split; [apply send_prompt_flags | apply send_discover_flags]. Qed.

(** X4. The posts of a telemetry routine, all of them.  [_send_prompt]
    posts the record to the classifier with the plain headers, which hold
    no API key; then, if and only if the chain has a non-empty [api_key],
    it posts the same record to the cloud server with the header
    [x-api-key] added.  This is so whatever the first post did.
    [_send_discover] does the same with the app payload. *)
Theorem telemetry_posts_exactly self qa app key url w :
  base_headers !! "x-api-key" = None
  ∧ posts_of (w_trace (_send_prompt env self qa w).2)
    = posts_of (w_trace w)
      ++ mkRequest (classifier_url self +:+ PROMPT_URL env) base_headers (PQa qa)
         :: match api_key_given (api_key self) with
            | Some k =>
                [mkRequest (PEBBLO_CLOUD_URL env +:+ PROMPT_URL env)
                   (<["x-api-key" := k]> base_headers) (PQa qa)]
            | None => []
            end
  ∧ posts_of (w_trace (_send_discover env app key url w).2)
    = posts_of (w_trace w)
      ++ mkRequest (url +:+ APP_DISCOVER_URL env) base_headers (PApp app)
         :: match api_key_given key with
            | Some k =>
                [mkRequest (PEBBLO_CLOUD_URL env +:+ APP_DISCOVER_URL env)
                   (<["x-api-key" := k]> base_headers) (PApp app)]
            | None => []
            end.
Proof.
  split; [by vm_compute |]. split.
  - run_telemetry. crack; rewrite !posts_of_app; simpl; by rewrite ?app_nil_r, <- ?app_assoc.
  - run_telemetry. crack; rewrite !posts_of_app; simpl; by rewrite ?app_nil_r, <- ?app_assoc.
Qed.

Lemma send_discover_posts app key url :
  starts_with
    (EvPost (mkRequest (url +:+ APP_DISCOVER_URL env) base_headers (PApp app)))
    (_send_discover env app key url).
Proof.
  unfold _send_discover, log.
  eapply (starts_with_bind is_telemetry).
  - eapply (starts_with_try is_telemetry).
    + eapply (starts_with_bind is_telemetry).
      * unfold post. eapply (starts_with_bind is_telemetry);
          [apply starts_with_emit | frame].
      * frame; apply debug_response_telemetry.
    + frame.
  - frame; first [apply post_telemetry | apply debug_response_telemetry].
Qed.

Lemma construct_world fields w : (construct env fields w).2 = w.
Proof.
  unfold construct. rewrite bind_unfold.
  by destruct (validate_vectorstore env (w_retriever w)).
Qed.

(** X5. When [from_chain_type] sends the discovery payload.  If
    [load_qa_chain] raises, or if building the app details raises (no
    retriever among the keyword arguments, an embeddings object without
    [model], a record the constructor of [App] refuses), that error comes
    out and the world is untouched: nothing was sent.  Otherwise the first
    thing that happens is the post of the app details to the classifier;
    this comes before the retriever is validated, so it happens for an
    unsupported store as well.  Only telemetry follows and the retriever is
    left as it was. *)
Theorem discover_sent_once_app_details_built llm name descr own chain_type key url kwargs
    w :
  (∀ e, load_qa_chain env llm chain_type = Raise e →
        from_chain_type env llm name descr own chain_type key url kwargs w
        = (Raise e, w))
  ∧ (∀ c e,
       load_qa_chain env llm chain_type = Ret c →
       _get_app_details env name own descr llm (retriever_kwarg kwargs w) = Raise e →
       from_chain_type env llm name descr own chain_type key url kwargs w = (Raise e, w))
  ∧ (∀ c app,
       load_qa_chain env llm chain_type = Ret c →
       _get_app_details env name own descr llm (retriever_kwarg kwargs w) = Ret app →
       w_retriever (from_chain_type env llm name descr own chain_type key url
                      kwargs w).2 = w_retriever w
       ∧ ∃ evs,
           w_trace (from_chain_type env llm name descr own chain_type key url
                      kwargs w).2
           = w_trace w
             ++ EvPost (mkRequest (url +:+ APP_DISCOVER_URL env) base_headers
                          (PApp app)) :: evs
           ∧ Forall is_telemetry evs).
Proof.
  rewrite from_chain_type_steps.
  split; [by intros e -> |]. split; [by intros c e -> -> |].
  intros c app -> ->. rewrite bind_unfold.
  destruct (send_discover_never_raises env app key url w) as ([] & Hret).
  pose proof (send_discover_keeps env app key url w) as Hkeep.
  destruct (send_discover_posts app key url w) as (evs & Htr).
  destruct (send_discover_telemetry env app key url w) as (evs' & Htr' & Htel).
  destruct (_send_discover env app key url w) as [res w1]; simpl in *. subst res.
  rewrite construct_world. split; [done |].
  exists evs. split; [exact Htr |].
  rewrite Htr in Htr'. apply app_inv_head in Htr'. subst evs'.
  by apply Forall_cons in Htel as [_ Htel].
Qed.

(** X6. With a loadable chain type, app details that can be built, and a
    store that is an instance of a supported class, [from_chain_type]
    returns a chain that holds the loaded combine-documents chain, the given
    names, key and classifier address, and the keyword arguments; the
    retriever carries whatever filter it had before, none is set at
    construction. *)
Theorem from_chain_type_builds_chain llm name descr own chain_type key url kwargs c app
    cls w :
  load_qa_chain env llm chain_type = Ret c →
  _get_app_details env name own descr llm (retriever_kwarg kwargs w) = Ret app →
  cls ∈ SUPPORTED_VECTORSTORES env →
  isinstance (vectorstore (w_retriever w)) cls = true →
  (from_chain_type env llm name descr own chain_type key url kwargs w).1
  = Ret (mkChain c (kw_input_key kwargs) (kw_output_key kwargs)
           (kw_return_source_documents kwargs) (kw_auth_context_key kwargs)
           (kw_semantic_context_key kwargs) name own descr key url)
  ∧ w_retriever (from_chain_type env llm name descr own chain_type key url kwargs w).2
    = w_retriever w.
Proof.
  intros Hc Happ Hin Hcls. rewrite from_chain_type_steps, Hc, Happ.
  rewrite bind_unfold.
  destruct (send_discover_never_raises env app key url w) as ([] & Hret).
  pose proof (send_discover_keeps env app key url w) as Hkeep.
  destruct (_send_discover env app key url w) as [res w1]; simpl in *. subst res.
  unfold construct. rewrite bind_unfold.
  rewrite (validate_supported env (w_retriever w1) cls Hin) by (by rewrite Hkeep).
  done.
Qed.

(** X7. [_call] and [_acall] read nothing of the inputs but the entries
    under the three keys of [input_keys]: two input dictionaries that agree
    on these keys give the same outcome and the same world. *)
Theorem call_reads_only_input_keys self inputs1 inputs2 w :
  (∀ k, k ∈ input_keys self → inputs1 !! k = inputs2 !! k) →
  _call env self inputs1 w = _call env self inputs2 w
  ∧ _acall env self inputs1 w = _acall env self inputs2 w.
Proof.
  intros Hagree.
  assert (inputs1 !! input_key self = inputs2 !! input_key self) as Hq
      by (apply Hagree, list_elem_of_here).
  assert (inputs1 !! auth_context_key self = inputs2 !! auth_context_key self) as Ha
      by (apply Hagree, list_elem_of_further, list_elem_of_here).
  assert (inputs1 !! semantic_context_key self = inputs2 !! semantic_context_key self)
    as Hs by (apply Hagree; do 2 apply list_elem_of_further; apply list_elem_of_here).
  unfold _call, _acall, getitem. by rewrite Hq, Ha, Hs.
Qed.

Lemma get_docs_starts self question auth sem :
  starts_with (EvSetFilters auth sem) (_get_docs env self question auth sem).
Proof.
  intros w. unfold _get_docs. rewrite get_docs_steps. cbv zeta.
  destruct (set_enforcement_filters env auth sem (w_retriever w)).1; simpl; eauto.
Qed.

Lemma aget_docs_starts self question auth sem :
  starts_with (EvSetFilters auth sem) (_aget_docs env self question auth sem).
Proof.
  intros w. unfold _aget_docs. rewrite get_docs_steps. cbv zeta.
  destruct (set_enforcement_filters env auth sem (w_retriever w)).1; simpl; eauto.
Qed.

Lemma after_docs_emits self question auth docs :
  emits_only (fun _ => True)
    (do! answer := combine false self docs question in
     do! qa_payload := (fun w =>
                          (qa_record env self (w_retriever w) (now_isoformat env) question
                             answer docs auth, w)) in
     do! _ := _send_prompt env self qa_payload in
     ret (result_dict self answer docs)).
Proof.
  apply emits_only_bind.
  { eapply emits_only_weaken; [| apply combine_retrieval]. done. }
  intros answer. apply emits_only_bind.
  { intros w. exists []. by rewrite app_nil_r. }
  intros qa. apply emits_only_bind; [| intros; apply emits_only_ret].
  eapply emits_only_weaken; [| apply send_prompt_telemetry]. done.
Qed.

(** X8. What the helper is called with.  Once the question is found, the
    first thing [_call] and [_acall] do is call [set_enforcement_filters]
    with the two contexts of the inputs.  For a context that is missing
    from the inputs, [_call] passes an empty dictionary and [_acall] passes
    [None]. *)
Theorem contexts_passed_to_helper self inputs question w :
  inputs !! input_key self = Some question →
  (∃ evs, w_trace (_call env self inputs w).2
          = w_trace w
            ++ EvSetFilters (default (VDict []) (inputs !! auth_context_key self))
                 (default (VDict []) (inputs !! semantic_context_key self)) :: evs)
  ∧ (∃ evs, w_trace (_acall env self inputs w).2
            = w_trace w
              ++ EvSetFilters (default VNone (inputs !! auth_context_key self))
                   (default VNone (inputs !! semantic_context_key self)) :: evs).
Proof.
  intros Hq. split.
  - rewrite (call_with_question env _ _ _ _ Hq). cbv zeta.
    apply (starts_with_bind (fun _ => True)); [apply get_docs_starts |].
    intros docs. apply after_docs_emits.
  - rewrite (acall_with_question env _ _ _ _ Hq). cbv zeta.
    apply (starts_with_bind is_retrieval); [apply aget_docs_starts |].
    intros docs. apply emits_only_bind; [apply combine_retrieval |].
    intros answer. apply emits_only_ret.
Qed.

(** ** [_call] step by step *)

Lemma get_docs_inv self question auth sem w :
  let res := set_enforcement_filters env auth sem (w_retriever w) in
  w_retriever (_get_docs env self question auth sem w).2 = res.2
  ∧ w_discover_sent (_get_docs env self question auth sem w).2 = w_discover_sent w
  ∧ w_prompt_sent (_get_docs env self question auth sem w).2 = w_prompt_sent w
  ∧ (∀ docs, (_get_docs env self question auth sem w).1 = Ret docs →
             res.1 = Ret tt ∧ get_relevant_documents env res.2 question = Ret docs).
Proof.
  intros res. unfold _get_docs. rewrite get_docs_steps. fold res. cbv zeta.
  destruct (res.1) as [[]|e]; simpl; done.
Qed.

Lemma aget_docs_inv self question auth sem w :
  let res := set_enforcement_filters env auth sem (w_retriever w) in
  w_retriever (_aget_docs env self question auth sem w).2 = res.2
  ∧ (res.1 = Ret tt →
     (_aget_docs env self question auth sem w).1
     = aget_relevant_documents env res.2 question).
Proof.
  intros res. unfold _aget_docs. rewrite get_docs_steps. fold res. cbv zeta.
  destruct (res.1) as [[]|e]; simpl; done.
Qed.

Lemma combine_steps is_async self docs question w :
  combine is_async self docs question w
  = (if is_async then arun (combine_documents_chain self) docs question
     else run (combine_documents_chain self) docs question,
     combined is_async docs question w).
Proof. unfold combine. by rewrite bind_unfold. Qed.

(** [_call] from the point where the documents are there. *)
Lemma call_after_docs self inputs question docs w w1 :
  inputs !! input_key self = Some question →
  _get_docs env self question
    (default (VDict []) (inputs !! auth_context_key self))
    (default (VDict []) (inputs !! semantic_context_key self)) w = (Ret docs, w1) →
  _call env self inputs w
  = match run (combine_documents_chain self) docs question with
    | Raise e => (Raise e, combined false docs question w1)
    | Ret answer =>
        match qa_record env self (w_retriever w1) (now_isoformat env) question answer docs
                (default (VDict []) (inputs !! auth_context_key self)) with
        | Raise e => (Raise e, combined false docs question w1)
        | Ret qa =>
            (Ret (result_dict self answer docs),
             (_send_prompt env self qa (combined false docs question w1)).2)
        end
    end.
Proof.
  intros Hq Hdocs. rewrite (call_with_question env _ _ _ _ Hq). cbv zeta.
  rewrite (bind_ret _ _ _ _ _ Hdocs). rewrite bind_unfold, combine_steps.
  destruct (run (combine_documents_chain self) docs question) as [answer|e]; [| done].
  rewrite bind_unfold. cbv beta. simpl w_retriever.
  destruct (qa_record env self (w_retriever w1) (now_isoformat env) question answer docs _)
    as [qa|e]; [| done].
  rewrite bind_unfold.
  destruct (send_prompt_never_raises env self qa (combined false docs question w1))
    as ([] & Hret).
  destruct (_send_prompt env self qa (combined false docs question w1)) as [res w3].
  simpl in *. by subst.
Qed.

(** X10. With an [AuthContext] object in the inputs, once the documents
    are retrieved and the answer is made, the record is built from the app
    name, one context entry per retrieved document, the question, the
    answer, the time taken at the start of the call, the [user_id] as user
    and the [user_auth] as user identities.  If the constructor of [Qa]
    takes this record, [_call] returns its result and posts the record to
    the classifier, and any further post carries the same record. *)
Theorem auth_context_recorded self inputs question a docs answer w w1 :
  inputs !! input_key self = Some question →
  inputs !! auth_context_key self = Some (VAuthContext a) →
  _get_docs env self question (VAuthContext a)
    (default (VDict []) (inputs !! semantic_context_key self)) w = (Ret docs, w1) →
  run (combine_documents_chain self) docs question = Ret answer →
  let qa := mkQa (app_name self)
              (qa_context_of (vs_class_name (vectorstore (w_retriever w1))) docs)
              question answer (now_isoformat env) (user_id a) (user_auth a) in
  Qa_validate env qa = None →
  ∃ evs,
    (_call env self inputs w).1 = Ret (result_dict self answer docs)
    ∧ w_trace (_call env self inputs w).2
      = w_trace w1
        ++ EvCombine false docs question
           :: EvPost (mkRequest (classifier_url self +:+ PROMPT_URL env) base_headers
                        (PQa qa)) :: evs
    ∧ Forall (carries qa) evs.
Proof.
  intros Hq Ha Hdocs Hans qa Hok.
  assert (default (VDict []) (inputs !! auth_context_key self) = VAuthContext a) as Hd
      by (by rewrite Ha).
  rewrite <- Hd in Hdocs.
  rewrite (call_after_docs _ _ _ _ _ _ Hq Hdocs), Hans, Hd.
  assert (qa_record env self (w_retriever w1) (now_isoformat env) question answer docs
            (VAuthContext a) = Ret qa) as ->.
  { unfold qa_record, qa_dict. simpl. fold qa. by rewrite Hok. }
  set (w2 := combined false docs question w1).
  destruct (send_prompt_posts env self qa w2) as (evs & Hevs).
  destruct (send_prompt_carries env self qa w2) as (evs' & Hevs' & Hcar).
  exists evs. split; [done |]. split.
  - simpl. rewrite Hevs. subst w2. simpl. by rewrite <- app_assoc.
  - rewrite Hevs in Hevs'. apply app_inv_head in Hevs'. subst evs'.
    by apply Forall_cons in Hcar as [_ Hcar].
Qed.

Lemma get_docs_no_posts self question auth sem w :
  posts_of (w_trace (_get_docs env self question auth sem w).2) = posts_of (w_trace w).
Proof.
  destruct (get_docs_retrieval env self question auth sem w) as (evs & -> & Hev).
  by rewrite posts_of_app, (posts_of_retrieval _ Hev), app_nil_r.
Qed.

Lemma combined_no_posts is_async docs question w :
  posts_of (w_trace (combined is_async docs question w)) = posts_of (w_trace w).
Proof. unfold combined. simpl. by rewrite posts_of_app, app_nil_r. Qed.

(** X12. [_call] posts only when it is going to return.  Whenever
    [_call] raises, be it for a missing question, a failing filter helper,
    a failing search, a failing combine-documents chain, an auth context
    without [user_id] or a record the constructor of [Qa] refuses, no
    request was posted and both sent flags are as before. *)
Theorem call_raises_posts_nothing self inputs w e :
  (_call env self inputs w).1 = Raise e →
  posts_of (w_trace (_call env self inputs w).2) = posts_of (w_trace w)
  ∧ w_discover_sent (_call env self inputs w).2 = w_discover_sent w
  ∧ w_prompt_sent (_call env self inputs w).2 = w_prompt_sent w.
Proof.
  destruct (inputs !! input_key self) as [question|] eqn:Hq.
  2: { destruct (call_without_question env self inputs w Hq) as [-> _]. done. }
  set (auth := default (VDict []) (inputs !! auth_context_key self)).
  set (sem := default (VDict []) (inputs !! semantic_context_key self)).
  pose proof (get_docs_no_posts self question auth sem w) as Hposts.
  destruct (get_docs_inv self question auth sem w) as (_ & Hd & Hp & _).
  destruct (_get_docs env self question auth sem w) as [[docs|e'] w1] eqn:Hdocs.
  - rewrite (call_after_docs _ _ _ _ _ _ Hq Hdocs). simpl in Hposts, Hd, Hp.
    destruct (run (combine_documents_chain self) docs question) as [answer|e''].
    + fold auth.
      destruct (qa_record env self (w_retriever w1) (now_isoformat env) question answer
                  docs auth) as [qa|e'']; [discriminate |].
      intros _. cbn [fst snd]. by rewrite combined_no_posts.
    + intros _. cbn [fst snd]. by rewrite combined_no_posts.
  - rewrite (call_with_question env _ _ _ _ Hq). cbv zeta. fold auth sem.
    rewrite (bind_raise _ _ _ _ _ Hdocs). done.
Qed.

Lemma after_docs_keeps self question auth docs :
  keeps_retriever
    (do! answer := combine false self docs question in
     do! qa_payload := (fun w =>
                          (qa_record env self (w_retriever w) (now_isoformat env) question
                             answer docs auth, w)) in
     do! _ := _send_prompt env self qa_payload in
     ret (result_dict self answer docs)).
Proof.
  apply keeps_retriever_bind.
  { intros w. by rewrite combine_steps. }
  intros answer. apply keeps_retriever_bind; [done |].
  intros qa. apply keeps_retriever_bind; [apply send_prompt_keeps | done].
Qed.

(** X13. The chain never takes the filter off again.  After [_call], and
    after [_acall], whether they return or raise, the retriever is exactly
    as [set_enforcement_filters] left it for this request: neither the
    search nor anything after it changes it, so the next user of the same
    retriever finds the filter of this request in place. *)
Theorem filter_stays_attached self inputs question w :
  inputs !! input_key self = Some question →
  w_retriever (_call env self inputs w).2
  = (set_enforcement_filters env
       (default (VDict []) (inputs !! auth_context_key self))
       (default (VDict []) (inputs !! semantic_context_key self)) (w_retriever w)).2
  ∧ w_retriever (_acall env self inputs w).2
    = (set_enforcement_filters env
         (default VNone (inputs !! auth_context_key self))
         (default VNone (inputs !! semantic_context_key self)) (w_retriever w)).2.
Proof.
  intros Hq. split.
  - rewrite (call_with_question env _ _ _ _ Hq). cbv zeta.
    rewrite keeps_retriever_bind_from.
    + apply get_docs_inv.
    + intros docs. apply after_docs_keeps.
  - rewrite (acall_with_question env _ _ _ _ Hq). cbv zeta.
    rewrite keeps_retriever_bind_from.
    + apply aget_docs_inv.
    + intros docs. apply keeps_retriever_bind; [| done].
      intros w'. by rewrite combine_steps.
Qed.

Lemma result_dict_lookups self answer docs :
  (return_source_documents self = true →
   result_dict self answer docs !! "source_documents" = Some (VDocs docs))
  ∧ (return_source_documents self = false ∨ output_key self ≠ "source_documents" →
     result_dict self answer docs !! output_key self = Some (VStr answer))
  ∧ (∀ k, k ∉ output_keys self → result_dict self answer docs !! k = None).
Proof.
  unfold result_dict, output_keys.
  destruct (return_source_documents self); simpl.
  - split; [intros _; apply lookup_insert_eq |]. split.
    + intros [? | Hne]; [done |]. rewrite lookup_insert_ne by done.
      apply lookup_insert_eq.
    + intros k Hk. apply not_elem_of_cons in Hk as [Hk1 Hk2].
      apply not_elem_of_cons in Hk2 as [Hk2 _].
      by rewrite !lookup_insert_ne.
  - split; [done |]. split; [intros _; apply lookup_insert_eq |].
    intros k Hk. apply not_elem_of_cons in Hk as [Hk1 _].
    by rewrite lookup_insert_ne.
Qed.

(** What a returning [_call] went through. *)
Lemma call_ret_inv self inputs question w out :
  inputs !! input_key self = Some question →
  (_call env self inputs w).1 = Ret out →
  let res := set_enforcement_filters env
               (default (VDict []) (inputs !! auth_context_key self))
               (default (VDict []) (inputs !! semantic_context_key self))
               (w_retriever w) in
  ∃ docs answer,
    res.1 = Ret tt
    ∧ get_relevant_documents env res.2 question = Ret docs
    ∧ run (combine_documents_chain self) docs question = Ret answer
    ∧ out = result_dict self answer docs.
Proof.
  intros Hq Hout res.
  set (auth := default (VDict []) (inputs !! auth_context_key self)) in *.
  set (sem := default (VDict []) (inputs !! semantic_context_key self)) in *.
  destruct (get_docs_inv self question auth sem w) as (_ & _ & _ & Hinv).
  destruct (_get_docs env self question auth sem w) as [[docs|e] w1] eqn:Hdocs.
  - rewrite (call_after_docs _ _ _ _ _ _ Hq Hdocs) in Hout. fold auth in Hout.
    destruct (Hinv docs eq_refl) as [Hres Hsearch].
    destruct (run (combine_documents_chain self) docs question) as [answer|e] eqn:Hrun;
      [| discriminate].
    destruct (qa_record env self (w_retriever w1) (now_isoformat env) question answer docs
                auth) as [qa|e]; [| discriminate].
    injection Hout as <-. exists docs, answer. done.
  - rewrite (call_with_question env _ _ _ _ Hq) in Hout. cbv zeta in Hout.
    fold auth sem in Hout. rewrite (bind_raise _ _ _ _ _ Hdocs) in Hout.
    discriminate.
Qed.

(** X14. What [_call] returns.  When [_call] returns, the filter helper
    had returned, the search on the retriever it left behind gave some
    documents, and the combine-documents chain gave an answer on exactly
    these documents.  With [return_source_documents] the result holds these
    documents under "source_documents"; it holds the answer under
    [output_key], unless [output_key] is itself "source_documents" and the
    documents are returned, and it holds nothing under any other key. *)
Theorem call_answers_on_retrieved_documents self inputs question w out :
  inputs !! input_key self = Some question →
  (_call env self inputs w).1 = Ret out →
  let res := set_enforcement_filters env
               (default (VDict []) (inputs !! auth_context_key self))
               (default (VDict []) (inputs !! semantic_context_key self))
               (w_retriever w) in
  ∃ docs answer,
    res.1 = Ret tt
    ∧ get_relevant_documents env res.2 question = Ret docs
    ∧ run (combine_documents_chain self) docs question = Ret answer
    ∧ (return_source_documents self = true →
       out !! "source_documents" = Some (VDocs docs))
    ∧ (return_source_documents self = false ∨ output_key self ≠ "source_documents" →
       out !! output_key self = Some (VStr answer))
    ∧ (∀ k, k ∉ output_keys self → out !! k = None).
Proof.
  intros Hq Hout res.
  destruct (call_ret_inv _ _ _ _ _ Hq Hout) as (docs & answer & H1 & H2 & H3 & ->).
  exists docs, answer. repeat (split; [done |]).
  apply result_dict_lookups.
Qed.

(** X15. The two paths agree.  For inputs that carry both contexts, if
    the asynchronous search and the asynchronous run of the combine chain
    give what their synchronous twins give for this question, then whatever
    [_call] returns, [_acall] returns too, and both leave the retriever in
    the same state. *)
Theorem async_agrees_with_sync self inputs question a s w out :
  inputs !! input_key self = Some question →
  inputs !! auth_context_key self = Some a →
  inputs !! semantic_context_key self = Some s →
  (∀ r, aget_relevant_documents env r question = get_relevant_documents env r question) →
  (∀ docs, arun (combine_documents_chain self) docs question
           = run (combine_documents_chain self) docs question) →
  (_call env self inputs w).1 = Ret out →
  (_acall env self inputs w).1 = Ret out
  ∧ w_retriever (_acall env self inputs w).2 = w_retriever (_call env self inputs w).2.
Proof.
  intros Hq Ha Hs Hsearch Hrun Hout.
  destruct (call_ret_inv _ _ _ _ _ Hq Hout) as (docs & answer & H1 & H2 & H3 & ->).
  rewrite Ha, Hs in H1, H2. simpl in H1, H2.
  split.
  - rewrite (acall_with_question env _ _ _ _ Hq). cbv zeta. rewrite Ha, Hs. simpl.
    destruct (aget_docs_inv self question a s w) as [_ Hdocs].
    specialize (Hdocs H1). rewrite Hsearch, H2 in Hdocs.
    rewrite bind_unfold.
    destruct (_aget_docs env self question a s w) as [o w1]. simpl in Hdocs. subst o.
    rewrite bind_unfold, combine_steps, Hrun, H3. done.
  - rewrite (call_with_question env _ _ _ _ Hq), (acall_with_question env _ _ _ _ Hq).
    cbv zeta. rewrite Ha, Hs. simpl.
    rewrite !keeps_retriever_bind_from.
    + destruct (get_docs_inv self question a s w) as [-> _].
      by destruct (aget_docs_inv self question a s w) as [-> _].
    + intros d. apply after_docs_keeps.
    + intros d. apply keeps_retriever_bind; [| done].
      intros w'. by rewrite combine_steps.
Qed.

(** X16. No method clears a sent flag.  [_call] leaves [_discover_sent]
    alone and never unsets [_prompt_sent]; [from_chain_type] leaves
    [_prompt_sent] alone and never unsets [_discover_sent]. *)
Theorem sent_flags_never_cleared self inputs llm name descr own chain_type key url kwargs
    w :
  (w_discover_sent (_call env self inputs w).2 = w_discover_sent w
   ∧ (w_prompt_sent w = true → w_prompt_sent (_call env self inputs w).2 = true))
  ∧ (w_prompt_sent (from_chain_type env llm name descr own chain_type key url kwargs
                      w).2 = w_prompt_sent w
     ∧ (w_discover_sent w = true →
        w_discover_sent (from_chain_type env llm name descr own chain_type key url
                           kwargs w).2 = true)).
Proof.
  split.
  - destruct (inputs !! input_key self) as [question|] eqn:Hq.
    2: { destruct (call_without_question env self inputs w Hq) as [-> _]. done. }
    set (auth := default (VDict []) (inputs !! auth_context_key self)).
    set (sem := default (VDict []) (inputs !! semantic_context_key self)).
    destruct (get_docs_inv self question auth sem w) as (_ & Hd & Hp & _).
    destruct (_get_docs env self question auth sem w) as [[docs|e] w1] eqn:Hdocs;
      simpl in Hd, Hp.
    + rewrite (call_after_docs _ _ _ _ _ _ Hq Hdocs). fold auth.
      destruct (run (combine_documents_chain self) docs question) as [answer|e];
        [| by rewrite <- Hp].
      destruct (qa_record env self (w_retriever w1) (now_isoformat env) question answer
                  docs auth) as [qa|e]; [| by rewrite <- Hp].
      cbn [fst snd].
      destruct (send_prompt_flags self qa (combined false docs question w1))
        as [-> ->].
      simpl. rewrite Hd, Hp. split; [done |]. by intros ->.
    + rewrite (call_with_question env _ _ _ _ Hq). cbv zeta. fold auth sem.
      rewrite (bind_raise _ _ _ _ _ Hdocs). simpl. by rewrite Hp.
  - destruct (load_qa_chain env llm chain_type) as [c|e] eqn:Hc.
    + rewrite from_chain_type_steps, Hc.
      destruct (_get_app_details env name own descr llm (retriever_kwarg kwargs w))
        as [app|e]; [| done].
      rewrite bind_unfold.
      destruct (send_discover_never_raises env app key url w) as ([] & Hret).
      destruct (send_discover_flags app key url w) as [Hd Hp].
      destruct (_send_discover env app key url w) as [res w1]; simpl in *. subst res.
      rewrite construct_world, Hd, Hp. split; [done |]. by intros ->.
    + by rewrite from_chain_type_steps, Hc.
Qed.

End FurtherFacts.

(** ** The further properties at work on the sample deployment *)

(** X2, run: a request without a question. *)
Lemma missing_question_is_key_error_witness :
  _call Sample.env Sample.chain ∅ (Sample.world "X")
  = (Raise (mkExn KeyError "query"), Sample.world "X")
  ∧ _acall Sample.env Sample.chain ∅ (Sample.world "X")
    = (Raise (mkExn KeyError "query"), Sample.world "X").
Proof.
  apply (missing_question_is_key_error Sample.env Sample.chain ∅ (Sample.world "X")).
  reflexivity.
Defined.

(** X6, run: a store of the supported class X whose embeddings have a
    model. *)
Lemma from_chain_type_builds_chain_witness :
  (from_chain_type Sample.env (mkLLM "ChatModel" (Some (Some "m-1")) None) "app" "demo"
     "owner" "stuff" None "http://localhost:8000" default_kwargs (Sample.world "X")).1
  = Ret (mkChain Sample.qa_chain "query" "result" false "auth_context"
           "semantic_context" "app" "owner" "demo" None "http://localhost:8000")
  ∧ w_retriever
      (from_chain_type Sample.env (mkLLM "ChatModel" (Some (Some "m-1")) None) "app"
         "demo" "owner" "stuff" None "http://localhost:8000" default_kwargs
         (Sample.world "X")).2
    = w_retriever (Sample.world "X").
Proof.
  apply (from_chain_type_builds_chain Sample.env
           (mkLLM "ChatModel" (Some (Some "m-1")) None) "app" "demo" "owner" "stuff" None
           "http://localhost:8000" default_kwargs Sample.qa_chain
           (mkApp "app" "owner" "demo" "python" "langchain"
              [mkChainDetails "PebbloRetrievalQA" (Some "m-1") "ChatModel"
                 [mkVectorDbDetails "X" (Some "embed-1")]] "0.1.1")
           (Sample.class "X") (Sample.world "X")).
  - reflexivity.
  - vm_compute. reflexivity.
  - apply list_elem_of_here.
  - reflexivity.
Defined.

(** The app details cannot be built: the embeddings object of the store
    has no [model], or no retriever was given; the error comes out before
    anything is sent.  A model name that is stored as [None] is taken as it
    is, the entry [model] is not looked at. *)
Example app_details_edge_cases :
  let llm := mkLLM "ChatModel" (Some None) (Some (Some "fallback")) in
  let bare := mkRetriever
                (mkVectorStore (Sample.class "X") [] (Some (mkEmbeddings None))
                   (Some (mkEmbeddings (Some "embed-2")))) None in
  from_chain_type Sample.env llm "app" "demo" "owner" "stuff" None
    "http://localhost:8000" default_kwargs (mkWorld bare false false [])
  = (Raise (mkExn AttributeError "model"), mkWorld bare false false [])
  ∧ from_chain_type Sample.env llm "app" "demo" "owner" "stuff" None
      "http://localhost:8000"
      (mkKwargs "query" "result" false "auth_context" "semantic_context" false)
      (Sample.world "X")
    = (Raise (mkExn KeyError "retriever"), Sample.world "X")
  ∧ get_chain_details llm (Some (Sample.retriever "X"))
    = Ret [mkChainDetails "PebbloRetrievalQA" None "ChatModel"
             [mkVectorDbDetails "X" (Some "embed-1")]].
Proof. vm_compute. done. Qed.

(** X7, run: an entry under a key the chain does not know changes
    nothing. *)
Lemma call_reads_only_input_keys_witness :
  _call Sample.env Sample.chain Sample.inputs (Sample.world "X")
  = _call Sample.env Sample.chain (<["debug" := VStr "on"]> Sample.inputs)
      (Sample.world "X")
  ∧ _acall Sample.env Sample.chain Sample.inputs (Sample.world "X")
    = _acall Sample.env Sample.chain (<["debug" := VStr "on"]> Sample.inputs)
        (Sample.world "X").
Proof.
  apply (call_reads_only_input_keys Sample.env Sample.chain Sample.inputs
           (<["debug" := VStr "on"]> Sample.inputs) (Sample.world "X")).
  intros k Hk. symmetry. apply lookup_insert_ne. intros <-.
  vm_compute in Hk.
  repeat (apply elem_of_cons in Hk as [Hk | Hk]; [discriminate |]).
  by apply not_elem_of_nil in Hk.
Defined.

(** X8, run: a request with the question alone. *)
Lemma contexts_passed_to_helper_witness :
  (∃ evs, w_trace (_call Sample.env Sample.chain Sample.bare_inputs (Sample.world "X")).2
          = w_trace (Sample.world "X") ++ EvSetFilters (VDict []) (VDict []) :: evs)
  ∧ (∃ evs,
       w_trace (_acall Sample.env Sample.chain Sample.bare_inputs (Sample.world "X")).2
       = w_trace (Sample.world "X") ++ EvSetFilters VNone VNone :: evs).
Proof.
  apply (contexts_passed_to_helper Sample.env Sample.chain Sample.bare_inputs (VStr "q")
           (Sample.world "X")).
  reflexivity.
Defined.

(** A dictionary where an auth context should be: the helper of the
    sample deployment refuses it, and the call stops there. *)
Example dictionary_auth_is_refused :
  _call Sample.env Sample.chain Faulty.dict_inputs (Sample.world "X")
  = (Raise (mkExn InvalidConstraintError "auth_context"),
     mkWorld (Sample.retriever "X") false false
       [EvSetFilters (VDict [("user_id", "alice")]) (VDict [])]).
Proof. vm_compute. reflexivity. Qed.

(** X10, run: alice of team-a asks. *)
Lemma auth_context_recorded_witness :
  ∃ evs,
    (_call Sample.env Sample.chain Sample.inputs (Sample.world "X")).1
    = Ret (result_dict Sample.chain "forty-two" [IDoc Sample.memo])
    ∧ w_trace (_call Sample.env Sample.chain Sample.inputs (Sample.world "X")).2
      = w_trace (_get_docs Sample.env Sample.chain (VStr "q")
                   (VAuthContext Sample.alice) (VSemanticContext Sample.no_finance)
                   (Sample.world "X")).2
        ++ EvCombine false [IDoc Sample.memo] (VStr "q")
           :: EvPost (mkRequest "http://localhost:8000/v1/prompt" base_headers
                        (PQa (mkQa "app"
                                [mkContext (Some (MStr "memo.pdf")) "quarterly memo" "X"]
                                (VStr "q") "forty-two" "2024-05-01T00:00:00" "alice"
                                ["team-a"]))) :: evs
    ∧ Forall (carries (mkQa "app"
                         [mkContext (Some (MStr "memo.pdf")) "quarterly memo" "X"]
                         (VStr "q") "forty-two" "2024-05-01T00:00:00" "alice"
                         ["team-a"])) evs.
Proof.
  apply (auth_context_recorded Sample.env Sample.chain Sample.inputs (VStr "q")
           Sample.alice [IDoc Sample.memo] "forty-two" (Sample.world "X")
           (_get_docs Sample.env Sample.chain (VStr "q") (VAuthContext Sample.alice)
              (VSemanticContext Sample.no_finance) (Sample.world "X")).2);
    vm_compute; reflexivity.
Defined.

(** X12, run: the search times out. *)
Lemma call_raises_posts_nothing_witness :
  posts_of (w_trace (_call Faulty.search_down Sample.chain Sample.inputs
                       (Sample.world "X")).2)
  = posts_of (w_trace (Sample.world "X"))
  ∧ w_discover_sent (_call Faulty.search_down Sample.chain Sample.inputs
                       (Sample.world "X")).2
    = w_discover_sent (Sample.world "X")
  ∧ w_prompt_sent (_call Faulty.search_down Sample.chain Sample.inputs
                     (Sample.world "X")).2
    = w_prompt_sent (Sample.world "X").
Proof.
  apply (call_raises_posts_nothing Faulty.search_down Sample.chain Sample.inputs
           (Sample.world "X") (mkExn OtherException "search timed out")).
  vm_compute. reflexivity.
Defined.

(** X13, run: the filter of alice's request is still on the retriever
    after the call. *)
Lemma filter_stays_attached_witness :
  w_retriever (_call Sample.env Sample.chain Sample.inputs (Sample.world "X")).2
  = (set_enforcement_filters Sample.env (VAuthContext Sample.alice)
       (VSemanticContext Sample.no_finance) (Sample.retriever "X")).2
  ∧ w_retriever (_acall Sample.env Sample.chain Sample.inputs (Sample.world "X")).2
    = (set_enforcement_filters Sample.env (VAuthContext Sample.alice)
         (VSemanticContext Sample.no_finance) (Sample.retriever "X")).2.
Proof.
  apply (filter_stays_attached Sample.env Sample.chain Sample.inputs (VStr "q")
           (Sample.world "X")).
  reflexivity.
Defined.

(** X14, run: the answer and the source documents of alice's request. *)
Lemma call_answers_on_retrieved_documents_witness :
  ∃ docs answer,
    (set_enforcement_filters Sample.env (VAuthContext Sample.alice)
       (VSemanticContext Sample.no_finance) (Sample.retriever "X")).1 = Ret tt
    ∧ get_relevant_documents Sample.env
        (set_enforcement_filters Sample.env (VAuthContext Sample.alice)
           (VSemanticContext Sample.no_finance) (Sample.retriever "X")).2 (VStr "q")
      = Ret docs
    ∧ run Sample.qa_chain docs (VStr "q") = Ret answer
    ∧ (true = true →
       result_dict Sample.chain "forty-two" [IDoc Sample.memo] !! "source_documents"
       = Some (VDocs docs))
    ∧ (true = false ∨ "result" ≠ "source_documents" →
       result_dict Sample.chain "forty-two" [IDoc Sample.memo] !! "result"
       = Some (VStr answer))
    ∧ (∀ k, k ∉ output_keys Sample.chain →
            result_dict Sample.chain "forty-two" [IDoc Sample.memo] !! k = None).
Proof.
  apply (call_answers_on_retrieved_documents Sample.env Sample.chain Sample.inputs
           (VStr "q") (Sample.world "X")
           (result_dict Sample.chain "forty-two" [IDoc Sample.memo])).
  - reflexivity.
  - vm_compute. reflexivity.
Defined.

(** X15, run: in the sample deployment the twins agree. *)
Lemma async_agrees_with_sync_witness :
  (_acall Sample.env Sample.chain Sample.inputs (Sample.world "X")).1
  = Ret (result_dict Sample.chain "forty-two" [IDoc Sample.memo])
  ∧ w_retriever (_acall Sample.env Sample.chain Sample.inputs (Sample.world "X")).2
    = w_retriever (_call Sample.env Sample.chain Sample.inputs (Sample.world "X")).2.
Proof.
  apply (async_agrees_with_sync Sample.env Sample.chain Sample.inputs (VStr "q")
           (VAuthContext Sample.alice) (VSemanticContext Sample.no_finance)
           (Sample.world "X")).
  - reflexivity.
  - reflexivity.
  - reflexivity.
  - reflexivity.
  - reflexivity.
  - vm_compute. reflexivity.
Defined.

(** A chain with an API key posts twice, and only the second post, the one
    to the cloud server, carries the key. *)
Example keyed_chain_posts :
  map (fun req => (req_url req, req_headers req !! "x-api-key"))
    (posts_of (w_trace (_call Sample.env Faulty.keyed_chain Sample.inputs
                          (Sample.world "X")).2))
  = [("http://localhost:8000/v1/prompt", None);
     ("https://api.pebblo.example/v1/prompt", Some "secret")].
Proof. vm_compute. reflexivity. Qed.

(** A failing language model: the error comes out and nothing is posted. *)
Example broken_chain_call :
  _call Sample.env Faulty.broken_chain Sample.anonymous_inputs (Sample.world "X")
  = (Raise (mkExn OtherException "model overloaded"),
     combined false [IDoc Sample.memo] (VStr "q")
       (_get_docs Sample.env Faulty.broken_chain (VStr "q") VNone VNone
          (Sample.world "X")).2).
Proof. vm_compute. reflexivity. Qed.

(** An unknown chain type: nothing is sent. *)
Example unknown_chain_type :
  from_chain_type Faulty.no_chain_type (mkLLM "ChatModel" (Some (Some "m-1")) None) "app"
    "demo" "owner" "nonsense" None "http://localhost:8000" default_kwargs
    (Sample.world "X")
  = (Raise (mkExn ValueError "unknown chain type"), Sample.world "X").
Proof. reflexivity. Qed.
